(** * terraAnalyser: the structural diff and the change classifier of [app.py]

    A shallow embedding of [find_differences], [get_the_differences],
    [change_details] and [analyse_plan], and the properties of the
    specification that concern them.

    Python values are an inductive type, dictionaries produced by the
    functions are finite maps, the [for] loops over mutable accumulators are
    monadic folds, and subscripting is fallible as it is in Python. *)

From Stdlib Require Import ZArith Ascii String List Decimal DecimalNat DecimalString.
From stdpp Require Import gmap strings list fin_maps.

Local Open Scope string_scope.
Set Warnings "-register-all".

(* ===================================================================== *)
(** ** Values *)
(* ===================================================================== *)

(** What [json.load] hands to the program, plus [VOther] for an object of
    any other class (a tuple, a bytes object, an instance of a user class)
    that keeps Python's default comparison: such an object is equal to
    itself only, and is named here by a label.

    Numbers are what Python's decoder makes of them: [VInt z] is the
    Python [int] z, [VFloat m e] the finite binary [float] of value
    [m * 2^e], and [VNaN] and [VInf] the floats that the decoder returns for
    the tokens [NaN], [Infinity] and [-Infinity], which are not JSON but
    which it accepts.

    A [dict] is the list of its items in insertion order; subscripting
    takes the first item with the key. *)
Inductive Value : Type :=
| VNone
| VBool (b : bool)
| VInt (z : Z)
| VFloat (m e : Z)
| VStr (s : string)
| VList (items : list Value)
| VDict (items : list (string * Value))
| VOther (label : string)
| VNaN
| VInf (negative : bool).

(** [isinstance(v, dict)] and [isinstance(v, list)]. *)
Definition is_dict (v : Value) : bool :=
  match v with VDict _ => true | _ => false end.

Definition is_list (v : Value) : bool :=
  match v with VList _ => true | _ => false end.

(** A tree-shaped value of the specification: mappings, sequences and the
    scalars string, number, bool and null. *)
Fixpoint tree_shaped (v : Value) : bool :=
  match v with
  | VOther _ => false
  | VList l => forallb tree_shaped l
  | VDict d => forallb (fun kv => tree_shaped (snd kv)) d
  | _ => true
  end.

(** The value holds no [NaN], the one float that is not equal to itself. *)
Fixpoint no_nan (v : Value) : bool :=
  match v with
  | VNaN => false
  | VList l => forallb no_nan l
  | VDict d => forallb (fun kv => no_nan (snd kv)) d
  | _ => true
  end.

(** Nesting depth, which bounds the recursion of [find_differences]. *)
Fixpoint height (v : Value) : nat :=
  match v with
  | VList l => S (fold_right (fun x n => Nat.max (height x) n) 0%nat l)
  | VDict d => S (fold_right (fun kv n => Nat.max (height (snd kv)) n) 0%nat d)
  | _ => 0%nat
  end.

(* ===================================================================== *)
(** ** Exceptions *)
(* ===================================================================== *)

(** [OutOfFuel] is not a Python exception: it marks a run of the fuelled
    recursion that was given too little fuel.  The interpreter's own
    recursion limit is a resource bound and is not modelled. *)
Inductive exn : Type := KeyError | IndexError | OutOfFuel.

Inductive result (A : Type) : Type :=
| Ok (a : A)
| Raise (e : exn).
Arguments Ok {A} a.
Arguments Raise {A} e.

Definition bind {A B : Type} (r : result A) (k : A -> result B) : result B :=
  match r with
  | Ok a => k a
  | Raise e => Raise e
  end.

Notation "x <- r ;; k" := (bind r (fun x => k))
  (at level 100, r at next level, right associativity).

Definition rmap {A B : Type} (f : A -> B) (r : result A) : result B :=
  match r with
  | Ok a => Ok (f a)
  | Raise e => Raise e
  end.

(** A [for] loop whose body updates an accumulator and may raise. *)
Fixpoint for_each {A S : Type} (body : S -> A -> result S) (l : list A) (s : S)
  : result S :=
  match l with
  | [] => Ok s
  | x :: l' => s' <- body s x ;; for_each body l' s'
  end.

(* ===================================================================== *)
(** ** Subscripting, truth value and comparison *)
(* ===================================================================== *)

(** [d[key]] on the items of a dict. *)
Fixpoint dict_get (items : list (string * Value)) (key : string) : option Value :=
  match items with
  | [] => None
  | (k, v) :: rest => if String.eqb k key then Some v else dict_get rest key
  end.

Definition getitem (items : list (string * Value)) (key : string) : result Value :=
  match dict_get items key with
  | Some v => Ok v
  | None => Raise KeyError
  end.

(** [l[i]] for a non-negative index. *)
Definition list_getitem (l : list Value) (i : nat) : result Value :=
  match nth_error l i with
  | Some v => Ok v
  | None => Raise IndexError
  end.

(** [set(d.keys())]. *)
Definition key_set (items : list (string * Value)) : gset string :=
  list_to_set (map fst items).

(** The truth value of an object, as [x if x else y] tests it. *)
Definition truthy (v : Value) : bool :=
  match v with
  | VNone => false
  | VBool b => b
  | VInt z => negb (z =? 0)%Z
  | VFloat m _ => negb (m =? 0)%Z
  | VStr s => negb (String.eqb s "")
  | VList l => match l with [] => false | _ => true end
  | VDict d => match d with [] => false | _ => true end
  | VOther _ => true
  | VNaN => true
  | VInf _ => true
  end.

(** The numeric value of a bool, an int or a finite float, as mantissa and
    binary exponent.  Python compares these three types by value. *)
Definition numeric (v : Value) : option (Z * Z) :=
  match v with
  | VBool b => Some (if b then 1%Z else 0%Z, 0%Z)
  | VInt z => Some (z, 0%Z)
  | VFloat m e => Some (m, e)
  | _ => None
  end.

Definition num_eqb (x y : Z * Z) : bool :=
  let e := Z.min (snd x) (snd y) in
  (fst x * 2 ^ (snd x - e) =? fst y * 2 ^ (snd y - e))%Z.

(** [x == y].  An infinity is equal to the infinity of the same sign only,
    and [NaN] to nothing, itself included. *)
Fixpoint py_eq (x y : Value) {struct x} : bool :=
  match x, y with
  | VNone, VNone => true
  | VStr s, VStr t => String.eqb s t
  | VOther a, VOther b => String.eqb a b
  | VInf s, VInf t => Bool.eqb s t
  | VList l, VList m =>
      (fix all2 (l : list Value) (m : list Value) {struct l} : bool :=
         match l, m with
         | [], [] => true
         | u :: l', v :: m' => py_eq u v && all2 l' m'
         | _, _ => false
         end) l m
  | VDict a, VDict b =>
      (length a =? length b)%nat &&
      (fix all_in (a : list (string * Value)) {struct a} : bool :=
         match a with
         | [] => true
         | (k, u) :: a' =>
             match dict_get b k with
             | Some v => py_eq u v && all_in a'
             | None => false
             end
         end) a
  | (VBool _ | VInt _ | VFloat _ _), (VBool _ | VInt _ | VFloat _ _) =>
      match numeric x, numeric y with
      | Some p, Some q => num_eqb p q
      | _, _ => false
      end
  | _, _ => false
  end.

(** [x != y]. *)
Definition py_ne (x y : Value) : bool := negb (py_eq x y).

(* ===================================================================== *)
(** ** Paths *)
(* ===================================================================== *)

(** [s.lstrip(c)], [s.rstrip(c)] and [s.strip(c)] for a single character. *)
Fixpoint lstrip (c : ascii) (s : string) : string :=
  match s with
  | EmptyString => EmptyString
  | String a s' => if Ascii.eqb a c then lstrip c s' else s
  end.

Fixpoint rstrip (c : ascii) (s : string) : string :=
  match s with
  | EmptyString => EmptyString
  | String a s' =>
      match rstrip c s' with
      | EmptyString => if Ascii.eqb a c then EmptyString else String a EmptyString
      | r => String a r
      end
  end.

Definition strip (c : ascii) (s : string) : string := rstrip c (lstrip c s).

(** [str(i)] for a non-negative integer. *)
Definition str (i : nat) : string := NilEmpty.string_of_uint (Nat.to_uint i).

(** [f"{path}.{key}".strip(".")]. *)
Definition key_path (path key : string) : string :=
  strip "." (path ++ "." ++ key).

(** [f"{path}[{i}]"]. *)
Definition index_path (path : string) (i : nat) : string :=
  path ++ "[" ++ str i ++ "]".

(* ===================================================================== *)
(** ** The difference set *)
(* ===================================================================== *)

(** The dict [{"added": {}, "removed": {}, "changed": {}}]; an entry of
    [changed] is the pair of its ["before"] and ["after"] values. *)
Record Differences : Type := mkDifferences {
  added : gmap string Value;
  removed : gmap string Value;
  changed : gmap string (Value * Value)
}.

Definition no_differences : Differences := mkDifferences ∅ ∅ ∅.

(** [differences["added"][p] = v] and its two siblings. *)
Definition set_added (p : string) (v : Value) (d : Differences) : Differences :=
  mkDifferences (<[p := v]> (added d)) (removed d) (changed d).

Definition set_removed (p : string) (v : Value) (d : Differences) : Differences :=
  mkDifferences (added d) (<[p := v]> (removed d)) (changed d).

Definition set_changed (p : string) (b a : Value) (d : Differences) : Differences :=
  mkDifferences (added d) (removed d) (<[p := (b, a)]> (changed d)).

(** [dict.update]: the entries of [m2] overwrite those of [m1]. *)
Definition update {V : Type} (m1 m2 : gmap string V) : gmap string V := m2 ∪ m1.

(** The three [update] calls that merge a sub-diff into the accumulator. *)
Definition merge (d sub : Differences) : Differences :=
  mkDifferences (update (added d) (added sub))
                (update (removed d) (removed sub))
                (update (changed d) (changed sub)).

(** The truth value of a dict: it is not empty. *)
Definition nonempty {V : Type} (m : gmap string V) : bool :=
  negb (bool_decide (dom m = ∅)).

(* ===================================================================== *)
(** ** Iteration order of a set *)
(* ===================================================================== *)

(** A set as the program builds it: [set(d.keys())] from the keys of a
    dict in their order, [x - y] and [x & y]. *)
Inductive set_expr : Type :=
| SetOf (keys : list string)
| SetDiff (x y : set_expr)
| SetInter (x y : set_expr).

(** The elements of the set. *)
Fixpoint members (e : set_expr) : gset string :=
  match e with
  | SetOf keys => list_to_set keys
  | SetDiff x y => members x ∖ members y
  | SetInter x y => members x ∩ members y
  end.

(** [set(d.keys())] for the items of a dict. *)
Definition keys_of (items : list (string * Value)) : set_expr :=
  SetOf (map fst items).

(** Python leaves the order in which a [set] is iterated unspecified, and
    in CPython it depends on how the set was built: two sets with the same
    elements can be iterated in different orders.  The model takes the order
    as a parameter: any function that, from the way a set was built, lists
    its elements, each once. *)
Class SetOrder : Type := {
  set_iter : set_expr -> list string;
  set_iter_perm : forall e : set_expr, set_iter e ≡ₚ elements (members e)
}.

(** One such order, used to run the model on concrete inputs. *)
Definition elements_order : SetOrder :=
  {| set_iter := fun e => elements (members e);
     set_iter_perm := fun e => reflexivity (elements (members e)) |}.

(** [enumerate(zip(before, after))]. *)
Fixpoint enumerate_zip (i : nat) (before after : list Value)
  : list (nat * (Value * Value)) :=
  match before, after with
  | b :: before', a :: after' => (i, (b, a)) :: enumerate_zip (S i) before' after'
  | _, _ => []
  end.

(** [range(lo, hi)]. *)
Definition range (lo hi : nat) : list nat := seq lo (hi - lo).

(* ===================================================================== *)
(** ** find_differences and get_the_differences *)
(* ===================================================================== *)

Section DiffEngine.
Context {order : SetOrder}.

(** The body of [find_differences], with the recursive calls made on one
    unit of fuel less. *)
Fixpoint find_differences_fuel (fuel : nat) (before after : Value) (path : string)
  : result Differences :=
  match fuel with
  | O => Raise OutOfFuel
  | S fuel' =>
      match before, after with
      | VDict b, VDict a =>
          let before_keys := keys_of b in
          let after_keys := keys_of a in
          d1 <- for_each
                  (fun d key => v <- getitem a key ;;
                                Ok (set_added (key_path path key) v d))
                  (set_iter (SetDiff after_keys before_keys)) no_differences ;;
          d2 <- for_each
                  (fun d key => v <- getitem b key ;;
                                Ok (set_removed (key_path path key) v d))
                  (set_iter (SetDiff before_keys after_keys)) d1 ;;
          for_each
            (fun d key =>
               bv <- getitem b key ;;
               av <- getitem a key ;;
               sub_diff <- find_differences_fuel fuel' bv av (key_path path key) ;;
               Ok (merge d sub_diff))
            (set_iter (SetInter before_keys after_keys)) d2
      | VList b, VList a =>
          d1 <- for_each
                  (fun d '(i, (b_item, a_item)) =>
                     sub_diff <- find_differences_fuel fuel' b_item a_item
                                   (index_path path i) ;;
                     Ok (merge d sub_diff))
                  (enumerate_zip 0 b a) no_differences ;;
          if (length b <? length a)%nat then
            for_each
              (fun d i => v <- list_getitem a i ;;
                          Ok (set_added (strip "." (index_path path i)) v d))
              (range (length b) (length a)) d1
          else if (length a <? length b)%nat then
            for_each
              (fun d i => v <- list_getitem b i ;;
                          Ok (set_removed (strip "." (index_path path i)) v d))
              (range (length a) (length b)) d1
          else Ok d1
      | _, _ =>
          if py_ne before after
          then Ok (set_changed path before after no_differences)
          else Ok no_differences
      end
  end.

(** [find_differences(before, after, path)]: the two trees are descended
    together, so the depth of the shallower one bounds the recursion. *)
Definition find_differences (before after : Value) (path : string)
  : result Differences :=
  find_differences_fuel (S (Nat.min (height before) (height after)))
                        before after path.

(** [get_the_differences(before, after)]: the difference set, or [None]. *)
Definition get_the_differences (before after : Value)
  : result (option Differences) :=
  differences <- find_differences before after "" ;;
  if nonempty (added differences) || nonempty (removed differences)
     || nonempty (changed differences)
  then Ok (Some differences)
  else Ok None.

End DiffEngine.

(* ===================================================================== *)
(** ** Entity-change records and their normalized form *)
(* ===================================================================== *)

(** The dict under the key ["change"] of an entry of the plan; a field is
    [None] when its key is missing. *)
Record change_body : Type := mkBody {
  cb_actions : option (list string);
  cb_before : option Value;
  cb_after : option Value;
  cb_dependencies : option Value
}.

(** An entry of [plan["resource_changes"]] or [plan["resource_drift"]]. *)
Record change : Type := mkChange {
  ch_name : option Value;
  ch_type : option Value;
  ch_change : option change_body
}.

(** The [{}] that [change.get("change", {})] falls back on. *)
Definition empty_body : change_body := mkBody None None None None.

(** What the key ["differences"] of a normalized record holds: [None], the
    literal [{}], or a difference set. *)
Inductive differences_field : Type :=
| DiffNone
| DiffEmptyDict
| DiffSet (d : Differences).

(** The dict built by [change_details]. *)
Record resource : Type := mkResource {
  r_name : Value;
  r_type : Value;
  r_actions : list string;
  r_before : Value;
  r_after : Value;
  r_dependencies : Value;
  r_differences : differences_field
}.

Definition control_actions : list string := ["create"; "delete"; "update"; "replace"].

(** [tok in action] for a list of strings. *)
Definition contains (tok : string) (action : list string) : bool :=
  bool_decide (tok ∈ action).

(** [change.get("change", {}).get("actions", [])]. *)
Definition actions_of (c : change) : list string :=
  default [] (cb_actions (default empty_body (ch_change c))).

Section Classifier.
Context {order : SetOrder}.

Definition change_details (c : change) (action : list string) : result resource :=
  let body := default empty_body (ch_change c) in
  let resource_name := default VNone (ch_name c) in
  let resource_type := default VNone (ch_type c) in
  let resource_actions := default [] (cb_actions body) in
  match action with
  | [] => Raise IndexError
  | first :: _ =>
      if contains first control_actions then
        let resource_before := default (VDict []) (cb_before body) in
        let resource_after := default (VDict []) (cb_after body) in
        differences <- get_the_differences resource_before resource_after ;;
        Ok {| r_name := resource_name;
              r_type := resource_type;
              r_actions := resource_actions;
              r_before := if truthy resource_before then resource_before else VDict [];
              r_after := if truthy resource_after then resource_after else VDict [];
              r_dependencies := default (VDict []) (cb_dependencies body);
              r_differences := match differences with
                               | Some d => DiffSet d
                               | None => DiffNone
                               end |}
      else
        Ok {| r_name := resource_name;
              r_type := resource_type;
              r_actions := resource_actions;
              r_before := VDict [];
              r_after := VDict [];
              r_dependencies := default (VDict []) (cb_dependencies body);
              r_differences := DiffEmptyDict |}
  end.

End Classifier.

(* ===================================================================== *)
(** ** analyse_plan *)
(* ===================================================================== *)

(** The dict [summary]. *)
Record summary : Type := mkSummary {
  s_create : nat;
  s_update : nat;
  s_delete : nat;
  s_replace : nat;
  s_no_op : nat
}.

(** The dict [changes_dict]. *)
Record changes_dict : Type := mkChanges {
  l_create_and_delete : list resource;
  l_create : list resource;
  l_update : list resource;
  l_delete : list resource;
  l_replace : list resource;
  l_no_op : list resource
}.

Definition summary0 : summary := mkSummary 0 0 0 0 0.
Definition changes_dict0 : changes_dict := mkChanges [] [] [] [] [] [].

(** The two accumulators of the loop. *)
Definition acc : Type := (changes_dict * summary)%type.

Inductive bucket : Type :=
| CreateAndDelete | Create | Update | Delete | Replace | NoOp.

Inductive counter : Type :=
| CCreate | CUpdate | CDelete | CReplace | CNoOp.

(** [summary[k] += 1]. *)
Definition incr (k : counter) (st : acc) : acc :=
  let '(cd, s) := st in
  (cd,
   match k with
   | CCreate => mkSummary (S (s_create s)) (s_update s) (s_delete s) (s_replace s) (s_no_op s)
   | CUpdate => mkSummary (s_create s) (S (s_update s)) (s_delete s) (s_replace s) (s_no_op s)
   | CDelete => mkSummary (s_create s) (s_update s) (S (s_delete s)) (s_replace s) (s_no_op s)
   | CReplace => mkSummary (s_create s) (s_update s) (s_delete s) (S (s_replace s)) (s_no_op s)
   | CNoOp => mkSummary (s_create s) (s_update s) (s_delete s) (s_replace s) (S (s_no_op s))
   end).

(** [changes_dict[k].append(r)]. *)
Definition append (k : bucket) (r : resource) (st : acc) : acc :=
  let '(cd, s) := st in
  (match k with
   | CreateAndDelete =>
       mkChanges (l_create_and_delete cd ++ [r]) (l_create cd) (l_update cd)
                 (l_delete cd) (l_replace cd) (l_no_op cd)
   | Create =>
       mkChanges (l_create_and_delete cd) (l_create cd ++ [r]) (l_update cd)
                 (l_delete cd) (l_replace cd) (l_no_op cd)
   | Update =>
       mkChanges (l_create_and_delete cd) (l_create cd) (l_update cd ++ [r])
                 (l_delete cd) (l_replace cd) (l_no_op cd)
   | Delete =>
       mkChanges (l_create_and_delete cd) (l_create cd) (l_update cd)
                 (l_delete cd ++ [r]) (l_replace cd) (l_no_op cd)
   | Replace =>
       mkChanges (l_create_and_delete cd) (l_create cd) (l_update cd)
                 (l_delete cd) (l_replace cd ++ [r]) (l_no_op cd)
   | NoOp =>
       mkChanges (l_create_and_delete cd) (l_create cd) (l_update cd)
                 (l_delete cd) (l_replace cd) (l_no_op cd ++ [r])
   end, s).

Section Analyse.
Context {order : SetOrder}.

(** The body of the loop of [analyse_plan]. *)
Definition analyse_change (st : acc) (c : change) : result acc :=
  let action := actions_of c in
  st <- (if contains "create" action then
           let st := incr CCreate st in
           if contains "delete" action then
             r <- change_details c action ;; Ok (append CreateAndDelete r st)
           else
             r <- change_details c action ;; Ok (append Create r st)
         else Ok st) ;;
  st <- (if contains "update" action then
           let st := incr CUpdate st in
           r <- change_details c action ;; Ok (append Update r st)
         else Ok st) ;;
  st <- (if contains "delete" action then
           let st := incr CDelete st in
           if negb (contains "create" action) then
             r <- change_details c action ;; Ok (append Delete r st)
           else Ok st
         else Ok st) ;;
  st <- (if contains "replace" action then
           let st := incr CReplace st in
           r <- change_details c action ;; Ok (append Replace r st)
         else Ok st) ;;
  if contains "no-op" action then
    let st := incr CNoOp st in
    r <- change_details c action ;; Ok (append NoOp r st)
  else Ok st.

(** [analyse_plan(plan, type_of_change)]: [None] when the section is
    missing or empty, the pair [(changes_dict, summary)] otherwise. *)
Definition analyse_plan (plan : gmap string (list change)) (type_of_change : string)
  : result (option acc) :=
  let changes := default [] (plan !! type_of_change) in
  match changes with
  | [] => Ok None
  | _ => st <- for_each analyse_change changes (changes_dict0, summary0) ;;
         Ok (Some st)
  end.

End Analyse.

(* ===================================================================== *)
(** ** Notions used by the statements *)
(* ===================================================================== *)

(** The difference set with the roles of before and after exchanged. *)
Definition swap_differences (d : Differences) : Differences :=
  mkDifferences (removed d) (added d) (prod_swap <$> changed d).

(** Every path that is a key of one of the three mappings. *)
Definition paths (d : Differences) : gset string :=
  dom (added d) ∪ dom (removed d) ∪ dom (changed d).

(** A key that path formatting keeps apart from the separators: it is not
    empty and has no ['.'] and no ['[']. *)
Fixpoint no_separator (s : string) : bool :=
  match s with
  | EmptyString => true
  | String c s' =>
      negb (Ascii.eqb c ".") && negb (Ascii.eqb c "[") && no_separator s'
  end.

Definition plain_key (k : string) : bool :=
  negb (String.eqb k "") && no_separator k.

(** All the keys of all the mappings of a value are plain. *)
Fixpoint plain_keys (v : Value) : bool :=
  match v with
  | VList l => forallb plain_keys l
  | VDict d => forallb (fun kv => plain_key (fst kv) && plain_keys (snd kv)) d
  | _ => true
  end.

(** The string begins with the character [c]. *)
Definition starts_with (c : ascii) (s : string) : bool :=
  match s with
  | EmptyString => false
  | String a _ => Ascii.eqb a c
  end.

(** What may follow the path of a node in the path of a node below it:
    nothing, or something that begins with a separator. *)
Definition sep_start (s : string) : bool :=
  match s with
  | EmptyString => true
  | String a _ => Ascii.eqb a "." || Ascii.eqb a "["
  end.

(** The path [q] is the path [p] or continues it after a separator. *)
Definition below (p q : string) : Prop :=
  exists s, q = p ++ s /\ sep_start s = true.

(** The path [q] can be the path of an entry of the diff made at [p]: it
    is [p], or it is the path of a plain key or of an index under [p], or
    it continues such a path. *)
Definition reach (p q : string) : Prop :=
  q = p \/
  (exists k, plain_key k = true /\ below (key_path p k) q) \/
  (exists i, below (index_path p i) q).

(** The three mappings of a difference set, and the paths of each. *)
Inductive part : Type := PAdded | PRemoved | PChanged.

Definition part_dom (x : part) (d : Differences) : gset string :=
  match x with
  | PAdded => dom (added d)
  | PRemoved => dom (removed d)
  | PChanged => dom (changed d)
  end.

(** No path is a key of two of the three mappings. *)
Definition one_mapping (d : Differences) : Prop :=
  forall x y q, q ∈ part_dom x d -> q ∈ part_dom y d -> x = y.


(** The first token of the action list is a control action. *)
Definition is_control (action : list string) : bool :=
  match action with
  | [] => false
  | first :: _ => contains first control_actions
  end.

(** What one turn of the loop of [analyse_plan] does to the accumulators
    once the normalized record [r] of the entry is known. *)
Definition classify (action : list string) (r : resource) (st : acc) : acc :=
  let st := if contains "create" action then
              if contains "delete" action
              then append CreateAndDelete r (incr CCreate st)
              else append Create r (incr CCreate st)
            else st in
  let st := if contains "update" action
            then append Update r (incr CUpdate st) else st in
  let st := if contains "delete" action then
              if negb (contains "create" action)
              then append Delete r (incr CDelete st)
              else incr CDelete st
            else st in
  let st := if contains "replace" action
            then append Replace r (incr CReplace st) else st in
  if contains "no-op" action
  then append NoOp r (incr CNoOp st) else st.

(** The link between the counters and the lengths of the lists. *)
Definition counters_match (st : acc) : Prop :=
  s_update (snd st) = length (l_update (fst st)) /\
  s_replace (snd st) = length (l_replace (fst st)) /\
  s_no_op (snd st) = length (l_no_op (fst st)) /\
  s_create (snd st) = (length (l_create (fst st)) + length (l_create_and_delete (fst st)))%nat /\
  s_delete (snd st) = (length (l_delete (fst st)) + length (l_create_and_delete (fst st)))%nat.

(** The mapping left by a loop that stores [items[key]] at the path of
    [key], for each key of a list of keys of [items]. *)
Definition insert_all (path : string) (items : list (string * Value))
    (keys : list string) (m : gmap string Value) : gmap string Value :=
  fold_left (fun m key => <[key_path path key := default VNone (dict_get items key)]> m)
            keys m.

(** The three mappings of a difference set are empty. *)
Definition all_empty (d : Differences) : Prop :=
  added d = ∅ /\ removed d = ∅ /\ changed d = ∅.

(** The record that [change_details] builds for an entry whose first action
    is not a control action. *)
Definition non_control_record (c : change) : resource :=
  {| r_name := default VNone (ch_name c);
     r_type := default VNone (ch_type c);
     r_actions := actions_of c;
     r_before := VDict [];
     r_after := VDict [];
     r_dependencies :=
       default (VDict []) (cb_dependencies (default empty_body (ch_change c)));
     r_differences := DiffEmptyDict |}.

(* ===================================================================== *)
(** ** Concrete inputs *)
(* ===================================================================== *)

(** An entry whose only action is ["no-op"], with some state on both sides. *)
Definition noop_change : change :=
  mkChange (Some (VStr "bucket")) (Some (VStr "aws_s3_bucket"))
    (Some (mkBody (Some ["no-op"])
                  (Some (VDict [("acl", VStr "private")]))
                  (Some (VDict [("acl", VStr "private")]))
                  None)).

Definition noop_plan : gmap string (list change) :=
  {[ "resource_changes" := [noop_change] ]}.

(** An entry that is created and deleted. *)
Definition recreate_change : change :=
  mkChange (Some (VStr "disk")) (Some (VStr "aws_ebs_volume"))
    (Some (mkBody (Some ["create"; "delete"])
                  (Some (VDict [("size", VInt 8)]))
                  (Some (VDict [("size", VInt 16)]))
                  None)).

(** An entry whose first action is ["no-op"] and which is updated too. *)
Definition noop_update_change : change :=
  mkChange (Some (VStr "vm")) (Some (VStr "aws_instance"))
    (Some (mkBody (Some ["no-op"; "update"])
                  (Some (VDict [("type", VStr "t2")]))
                  (Some (VDict [("type", VStr "t3")]))
                  None)).

(** An entry that is created, with no ["before"] key, and whose new state
    has a nested mapping. *)
Definition new_entity_items : list (string * Value) :=
  [("tags", VDict [("env", VStr "prod")])].

Definition new_entity_after : Value := VDict new_entity_items.



(** Two states in which the key ["a.b"] of the root and the key ["b"] under
    ["a"] get the same path. *)
Definition dotted_before : Value := VDict [("a", VDict [("b", VInt 1)])].
Definition dotted_after : Value := VDict [("a", VDict []); ("a.b", VInt 5)].

(** Two states with plain keys, nested mappings and sequences. *)
Definition plain_before : Value :=
  VDict [("a", VInt 1); ("b", VInt 2); ("l", VList [VInt 1; VInt 2])].
Definition plain_after : Value :=
  VDict [("b", VInt 3); ("c", VInt 4); ("l", VList [VInt 1])].

(* ===================================================================== *)
(** ** The lists and counters of analyse_plan, by name *)
(* ===================================================================== *)

(** [changes_dict[k]]. *)
Definition bucket_list (k : bucket) (cd : changes_dict) : list resource :=
  match k with
  | CreateAndDelete => l_create_and_delete cd
  | Create => l_create cd
  | Update => l_update cd
  | Delete => l_delete cd
  | Replace => l_replace cd
  | NoOp => l_no_op cd
  end.

(** The key of a list in [changes_dict]. *)
Definition bucket_name (k : bucket) : string :=
  match k with
  | CreateAndDelete => "create_and_delete"
  | Create => "create"
  | Update => "update"
  | Delete => "delete"
  | Replace => "replace"
  | NoOp => "no_op"
  end.

(** The test under which the loop of [analyse_plan] appends to a list. *)
Definition bucket_test (k : bucket) (action : list string) : bool :=
  match k with
  | CreateAndDelete => contains "create" action && contains "delete" action
  | Create => contains "create" action && negb (contains "delete" action)
  | Update => contains "update" action
  | Delete => contains "delete" action && negb (contains "create" action)
  | Replace => contains "replace" action
  | NoOp => contains "no-op" action
  end.

(** [summary[k]]. *)
Definition counter_value (k : counter) (s : summary) : nat :=
  match k with
  | CCreate => s_create s
  | CUpdate => s_update s
  | CDelete => s_delete s
  | CReplace => s_replace s
  | CNoOp => s_no_op s
  end.

(** The action token that a counter counts. *)
Definition counter_token (k : counter) : string :=
  match k with
  | CCreate => "create"
  | CUpdate => "update"
  | CDelete => "delete"
  | CReplace => "replace"
  | CNoOp => "no-op"
  end.

(** The value [v] is [t] or lies inside [t]. *)
Inductive occurs_in (v : Value) : Value -> Prop :=
| occurs_here : occurs_in v v
| occurs_in_list (l : list Value) (x : Value) :
    In x l -> occurs_in v x -> occurs_in v (VList l)
| occurs_in_dict (items : list (string * Value)) (k : string) (x : Value) :
    dict_get items k = Some x -> occurs_in v x -> occurs_in v (VDict items).

(* ===================================================================== *)
(** ** Output: the files, the terminal, main *)
(* ===================================================================== *)

(** [changes_dict.items()], in the order in which the keys were inserted. *)
Definition changes_items (cd : changes_dict) : list (string * list resource) :=
  [("create_and_delete", l_create_and_delete cd);
   ("create", l_create cd);
   ("update", l_update cd);
   ("delete", l_delete cd);
   ("replace", l_replace cd);
   ("no_op", l_no_op cd)].

(** [f"outputs/{change_type}_{type_of_change}.json"]. *)
Definition file_name (change_type type_of_change : string) : string :=
  "outputs/" ++ change_type ++ "_" ++ type_of_change ++ ".json".

(** What the program can see of the outside: the arguments of the calls of
    [print], in order, and for each file that was written the object that
    [json.dump] was given.  Opening a file with mode ["w"] replaces what it
    held.  Failures of the file system and of the serialization are not
    modelled. *)
Record world : Type := mkWorld {
  stdout : list string;
  files : gmap string (list resource)
}.

(** [print(line)]. *)
Definition print (line : string) (w : world) : world :=
  mkWorld (stdout w ++ [line]) (files w).

(** [generate_json_files(changes, type_of_change)]. *)
Definition generate_json_files (changes : changes_dict) (type_of_change : string)
    (w : world) : world :=
  fold_left
    (fun w '(change_type, change_value) =>
       mkWorld (stdout w)
               (<[file_name change_type type_of_change := change_value]> (files w)))
    (changes_items changes) w.

(** [display_summary(summary, type_of_change)]. *)
Definition display_summary (s : summary) (type_of_change : string) (w : world)
  : world :=
  let w := print ("Terraform Plan Summary: +++" ++ type_of_change ++ "+++") w in
  let w := print ("Resources to create: " ++ str (s_create s)) w in
  let w := print ("Resources to update: " ++ str (s_update s)) w in
  let w := print ("Resources to delete: " ++ str (s_delete s)) w in
  let w := print ("Resources to replace: " ++ str (s_replace s)) w in
  print ("Resources with no operation: " ++ str (s_no_op s)) w.

(** What [main] can end with besides returning: the [TypeError] of
    unpacking [None], or an exception of [analyse_plan]. *)
Inductive main_exn : Type :=
| TypeError
| Propagated (e : exn).

Section Output.
Context {order : SetOrder}.

(** Two functions of the Python library are taken as they are: what an
    f-string makes of an object, and [json.dumps(x, indent=4)], for a value
    and for what the key ["differences"] holds. *)
Variable format_value : Value -> string.
Variable json_dumps : Value -> string.
Variable json_dumps_differences : differences_field -> string.

(** The prints of [display_detailed_changes] for one record. *)
Definition display_change (r : resource) (w : world) : world :=
  let w := print (String "010" ("Resource Name: " ++ format_value (r_name r))) w in
  let w := print ("Resource Type: " ++ format_value (r_type r)) w in
  let w := print ("Actions: " ++ String.concat ", " (r_actions r)) w in
  let w := print "Before:" w in
  let w := print (json_dumps (r_before r)) w in
  let w := print "After:" w in
  let w := print (json_dumps (r_after r)) w in
  let w := print "Dependencies:" w in
  let w := print (json_dumps (r_dependencies r)) w in
  let w := print "Differences:" w in
  print (json_dumps_differences (r_differences r)) w.

(** [display_detailed_changes(detailed_changes, type_of_change)].  The
    values of [changes_dict] are lists, so the branch for [None] is never
    taken. *)
Definition display_detailed_changes (detailed_changes : changes_dict)
    (type_of_change : string) (w : world) : world :=
  let w := print ("Detailed Terraform Plan Analysis: +++(" ++ type_of_change ++ ")+++") w in
  fold_left
    (fun w '(change_type, change_value) =>
       let w := print ("Detailed Terraform Plan Analysis  for the +++("
                       ++ change_type ++ ")+++ section:") w in
       fold_left (fun w r => display_change r w) change_value w)
    (changes_items detailed_changes) w.

(** One turn of the loop of [main] on the decoded plan: the result of
    [analyse_plan] is unpacked as a pair, which raises [TypeError] when it
    is [None]. *)
Definition main_section (plan : gmap string (list change)) (w : world)
    (change_type : string) : world * option main_exn :=
  match analyse_plan plan change_type with
  | Raise e => (w, Some (Propagated e))
  | Ok None => (w, Some TypeError)
  | Ok (Some (detailed_changes, summary)) =>
      let w := display_summary summary change_type w in
      let w := display_detailed_changes detailed_changes change_type w in
      (generate_json_files detailed_changes change_type w, None)
  end.

(** [main()], given what [load_terraform_plan] returns; the loop stops at
    the first exception. *)
Definition main (plan : gmap string (list change)) (w : world)
  : world * option main_exn :=
  fold_left
    (fun st change_type =>
       match st with
       | (w, None) => main_section plan w change_type
       | (w, Some e) => (w, Some e)
       end)
    ["resource_drift"; "resource_changes"] (w, None).

End Output.

(** A section with three entries, and a plan that holds it twice. *)
Definition mixed_changes : list change :=
  [recreate_change; noop_update_change; noop_change].

Definition mixed_plan : gmap string (list change) :=
  {[ "resource_drift" := mixed_changes; "resource_changes" := mixed_changes ]}.

(** An entry whose only action is outside the five tokens, as a data
    source that is read, and a section made of it. *)
Definition read_change : change :=
  mkChange (Some (VStr "ami")) (Some (VStr "aws_ami"))
    (Some (mkBody (Some ["read"]) None (Some (VDict [("id", VStr "ami-1")])) None)).

Definition read_plan : gmap string (list change) :=
  {[ "resource_changes" := [read_change] ]}.

(** An entry that is created, as a plan has it: the ["before"] key is
    there and holds [null]. *)
Definition null_before_change : change :=
  mkChange (Some (VStr "vm")) (Some (VStr "aws_instance"))
    (Some (mkBody (Some ["create"]) (Some VNone) (Some new_entity_after) None)).

(** An entry that is deleted: the ["after"] key holds [null]. *)
Definition null_after_change : change :=
  mkChange (Some (VStr "vm")) (Some (VStr "aws_instance"))
    (Some (mkBody (Some ["delete"]) (Some new_entity_after) (Some VNone) None)).

(** [not changes], for the section of the plan that [analyse_plan] reads. *)
Definition no_changes (plan : gmap string (list change)) (type_of_change : string)
  : bool :=
  match default [] (plan !! type_of_change) with
  | [] => true
  | _ => false
  end.

(** A plan without drift, as most plans are. *)
Definition no_drift_plan : gmap string (list change) :=
  {[ "resource_changes" := mixed_changes ]}.

(** A world in which nothing was printed or written. *)
Definition world0 : world := mkWorld [] ∅.

(** Another order of iteration: that of [elements_order], reversed. *)
Definition reverse_order : SetOrder :=
  {| set_iter := fun e => reverse (elements (members e));
     set_iter_perm := fun e => reverse_Permutation (elements (members e)) |}.

(** The way a set was built, with the operands of [&] exchanged. *)
Definition mirror_expr (e : set_expr) : set_expr :=
  match e with
  | SetInter x y => SetInter y x
  | _ => e
  end.

(** The order that iterates [x & y] as a given order iterates [y & x]. *)
Definition mirror_order (o : SetOrder) : SetOrder.
Proof.
  refine {| set_iter := fun e => @set_iter o (mirror_expr e) |}.
  intros e. rewrite (@set_iter_perm o (mirror_expr e)).
  destruct e as [keys|x y|x y]; simpl; try reflexivity.
  by rewrite (comm_L (∩) (members y) (members x)).
Defined.

(** The keys that the iteration of a set follows in [operand_order]: those
    of the left operand of [-], those of the right operand of [&]. *)
Fixpoint leading_keys (e : set_expr) : list string :=
  match e with
  | SetOf keys => keys
  | SetDiff x _ => leading_keys x
  | SetInter _ y => leading_keys y
  end.

(** An order in which [x & y] and [y & x] are iterated differently, as
    CPython does: [x - y] in the order of the keys of [x], [x & y] in the
    order of the keys of [y]. *)
Definition operand_order : SetOrder.
Proof.
  refine {| set_iter := fun e =>
              filter (fun k => k ∈ members e) (remove_dups (leading_keys e)) |}.
  intros e. apply NoDup_Permutation.
  - apply NoDup_filter, NoDup_remove_dups.
  - apply NoDup_elements.
  - intros k. rewrite list_elem_of_filter, elem_of_remove_dups, elem_of_elements.
    split; [by intros [? _]|]. intros Hk. split; [done|].
    revert k Hk. induction e as [keys|x IHx y _|x _ y IHy]; intros k; simpl.
    + by rewrite elem_of_list_to_set.
    + intros [Hx _]%elem_of_difference. by apply IHx.
    + intros [_ Hy]%elem_of_intersection. by apply IHy.
Defined.

(** A state that holds [NaN]. *)
Definition nan_state : Value := VDict [("ratio", VNaN)].

(** Two states with the same two keys in different orders, in which the key
    ["k8.b"] of the root and the key ["b"] under ["k8"] get the same path. *)
Definition crossed_before : Value :=
  VDict [("k8", VDict [("b", VInt 1)]); ("k8.b", VInt 2)].
Definition crossed_after : Value :=
  VDict [("k8.b", VInt 4); ("k8", VDict [("b", VInt 3)])].

(** Two keys of one mapping that get the same path, since a dot at the end
    of a path is stripped. *)
Definition trailing_dot_after : Value := VDict [("a", VInt 1); ("a.", VInt 2)].

(* ===================================================================== *)
(** ** Basic facts: the monad, subscripts, heights *)
(* ===================================================================== *)

Lemma bind_ok {A B : Type} (r : result A) (k : A -> result B) (b : B) :
  bind r k = Ok b -> exists a, r = Ok a /\ k a = Ok b.
Proof. destruct r as [a|e]; simpl; [eauto | discriminate]. Qed.

(** A loop whose body preserves an invariant and never raises on the
    elements it meets ends normally, in a state that has the invariant. *)
Lemma for_each_invariant {A S : Type} (P : S -> Prop) (body : S -> A -> result S)
    (l : list A) (s : S) :
  P s ->
  (forall s x, x ∈ l -> P s -> exists s', body s x = Ok s' /\ P s') ->
  exists s', for_each body l s = Ok s' /\ P s'.
Proof.
  revert s. induction l as [|x l IH]; intros s Hs Hbody; simpl; [eauto|].
  destruct (Hbody s x) as (s1 & -> & Hs1); [left | done |]. simpl.
  apply IH; [done|]. intros s2 y Hy. apply Hbody. by right.
Qed.

Lemma dict_get_key_set (items : list (string * Value)) (k : string) :
  k ∈ key_set items <-> is_Some (dict_get items k).
Proof.
  unfold key_set. induction items as [|[k' v] items IH]; simpl.
  - split; [set_solver | intros [? ?]; discriminate].
  - rewrite elem_of_union, elem_of_singleton, IH.
    destruct (String.eqb_spec k' k) as [->|Hne]; split; eauto.
    intros [?|?]; [congruence | done].
Qed.

Lemma getitem_key_set (items : list (string * Value)) (k : string) :
  k ∈ key_set items -> exists v, getitem items k = Ok v /\ dict_get items k = Some v.
Proof.
  intros [v Hv]%dict_get_key_set. exists v. unfold getitem. by rewrite Hv.
Qed.

Lemma dict_get_height (items : list (string * Value)) (k : string) (v : Value) :
  dict_get items k = Some v -> (height v < height (VDict items))%nat.
Proof.
  simpl. induction items as [|[k' v'] items IH]; simpl; [discriminate|].
  destruct (String.eqb k' k); intros H.
  - injection H as ->. lia.
  - specialize (IH H). lia.
Qed.

Lemma enumerate_zip_height (b a : list Value) (i j : nat) (x y : Value) :
  (j, (x, y)) ∈ enumerate_zip i b a ->
  (height x < height (VList b))%nat /\ (height y < height (VList a))%nat.
Proof.
  revert i a. induction b as [|u b IH]; intros i [|w a]; simpl;
    try (intros H; by apply elem_of_nil in H).
  rewrite elem_of_cons. intros [H|H].
  - injection H as -> -> ->. lia.
  - destruct (IH _ _ H). simpl in *. lia.
Qed.

Lemma set_iter_elem_of `{SetOrder} (e : set_expr) (k : string) :
  k ∈ set_iter e <-> k ∈ members e.
Proof. by rewrite (set_iter_perm e), elem_of_elements. Qed.

Lemma set_iter_difference `{SetOrder} (x y : list (string * Value)) (k : string) :
  k ∈ set_iter (SetDiff (keys_of x) (keys_of y)) ->
  k ∈ key_set x /\ k ∉ key_set y.
Proof. intros Hk%set_iter_elem_of. by apply elem_of_difference in Hk. Qed.

Lemma set_iter_intersection `{SetOrder} (x y : list (string * Value)) (k : string) :
  k ∈ set_iter (SetInter (keys_of x) (keys_of y)) ->
  k ∈ key_set x /\ k ∈ key_set y.
Proof. intros Hk%set_iter_elem_of. by apply elem_of_intersection in Hk. Qed.

Lemma gset_difference_diag (X : gset string) : X ∖ X = ∅.
Proof.
  apply set_eq. intros k. rewrite elem_of_difference.
  split; [by intros [? ?] | intros Hk; by apply not_elem_of_empty in Hk].
Qed.

Lemma set_iter_nil `{SetOrder} (e : set_expr) : members e = ∅ -> set_iter e = [].
Proof.
  intros He. apply Permutation_nil_r. rewrite (set_iter_perm e), He.
  by rewrite elements_empty.
Qed.

Lemma list_getitem_range (l : list Value) (lo i : nat) :
  i ∈ range lo (length l) -> exists v, list_getitem l i = Ok v.
Proof.
  unfold range. rewrite list_elem_of_In, in_seq. intros Hi.
  unfold list_getitem. destruct (nth_error l i) eqn:E; [eauto|].
  apply nth_error_None in E. lia.
Qed.

(* ===================================================================== *)
(** ** The diff engine returns *)
(* ===================================================================== *)

Section DiffEngineFacts.
Context {order : SetOrder}.

Lemma for_each_ok {A S : Type} (body : S -> A -> result S) (l : list A) (s : S) :
  (forall s x, x ∈ l -> exists s', body s x = Ok s') ->
  exists s', for_each body l s = Ok s'.
Proof.
  intros Hbody.
  destruct (for_each_invariant (fun _ => True) body l s) as (s' & Hs' & _); eauto.
  intros s1 x Hx _. destruct (Hbody s1 x Hx) as [s2 ->]. eauto.
Qed.

(** With more fuel than the depth of the shallower tree, no subscript
    fails and the fuel does not run out. *)
Lemma find_differences_fuel_ok (fuel : nat) :
  forall (before after : Value) (path : string),
    (Nat.min (height before) (height after) < fuel)%nat ->
    exists d, find_differences_fuel fuel before after path = Ok d.
Proof.
  induction fuel as [|fuel IH]; intros before after path Hfuel; [lia|].
  destruct before as [| | | | |b|b| | |], after as [| | | | |a|a| | |];
    try (cbn [find_differences_fuel]; destruct (py_ne _ _); eauto; fail).
  - (* two lists *)
    cbn [find_differences_fuel].
    destruct (for_each_ok
      (fun d '(i, (b_item, a_item)) =>
         sub_diff <- find_differences_fuel fuel b_item a_item (index_path path i) ;;
         Ok (merge d sub_diff))
      (enumerate_zip 0 b a) no_differences) as [d1 ->].
    { intros d [i [x y]] Hin.
      destruct (enumerate_zip_height _ _ _ _ _ _ Hin) as [Hx Hy].
      destruct (IH x y (index_path path i)) as [sub ->]; [|simpl; eauto].
      change (height (VList b)) with (S (fold_right (fun x n => Nat.max (height x) n) 0%nat b)) in *.
      change (height (VList a)) with (S (fold_right (fun x n => Nat.max (height x) n) 0%nat a)) in *.
      lia. }
    cbn [bind].
    destruct (length b <? length a)%nat; [|destruct (length a <? length b)%nat].
    + apply for_each_ok. intros d i Hi.
      destruct (list_getitem_range _ _ _ Hi) as [v ->]. simpl. eauto.
    + apply for_each_ok. intros d i Hi.
      destruct (list_getitem_range _ _ _ Hi) as [v ->]. simpl. eauto.
    + eauto.
  - (* two dicts *)
    cbn [find_differences_fuel].
    destruct (for_each_ok
      (fun d key => v <- getitem a key ;; Ok (set_added (key_path path key) v d))
      (set_iter (SetDiff (keys_of a) (keys_of b))) no_differences) as [d1 ->].
    { intros d k [Hk _]%set_iter_difference.
      destruct (getitem_key_set a k Hk) as (v & -> & _). simpl. eauto. }
    cbn [bind].
    destruct (for_each_ok
      (fun d key => v <- getitem b key ;; Ok (set_removed (key_path path key) v d))
      (set_iter (SetDiff (keys_of b) (keys_of a))) d1) as [d2 ->].
    { intros d k [Hk _]%set_iter_difference.
      destruct (getitem_key_set b k Hk) as (v & -> & _). simpl. eauto. }
    cbn [bind].
    apply for_each_ok.
    intros d k [Hkb Hka]%set_iter_intersection.
    destruct (getitem_key_set b k Hkb) as (bv & -> & Hbv).
    destruct (getitem_key_set a k Hka) as (av & -> & Hav).
    cbn [bind].
    apply dict_get_height in Hbv, Hav.
    destruct (IH bv av (key_path path k)) as [sub ->]; [|simpl; eauto].
    change (height (VDict b)) with (S (fold_right (fun kv n => Nat.max (height (snd kv)) n) 0%nat b)) in *.
    change (height (VDict a)) with (S (fold_right (fun kv n => Nat.max (height (snd kv)) n) 0%nat a)) in *.
    lia.
Qed.

Lemma find_differences_ok (before after : Value) (path : string) :
  exists d, find_differences before after path = Ok d.
Proof. apply find_differences_fuel_ok. lia. Qed.

Lemma get_the_differences_ok (before after : Value) :
  exists o, get_the_differences before after = Ok o.
Proof.
  unfold get_the_differences.
  destruct (find_differences_ok before after "") as [d ->]. simpl.
  destruct (_ || _); eauto.
Qed.

End DiffEngineFacts.

(* ===================================================================== *)
(** ** The classifier *)
(* ===================================================================== *)

Section ClassifierFacts.
Context {order : SetOrder}.

Lemma change_details_ok (c : change) (action : list string) :
  action <> [] -> exists r, change_details c action = Ok r.
Proof.
  destruct action as [|first rest]; [done|]. intros _. unfold change_details.
  destruct (contains first control_actions); [|eauto].
  destruct (get_the_differences_ok
              (default (VDict []) (cb_before (default empty_body (ch_change c))))
              (default (VDict []) (cb_after (default empty_body (ch_change c)))))
    as [o ->].
  simpl. eauto.
Qed.

Lemma change_details_non_control (c : change) (action : list string) :
  action <> [] -> is_control action = false ->
  change_details c action = Ok (non_control_record c).
Proof.
  destruct action as [|first rest]; [done|]. intros _ Hctl. simpl in Hctl.
  unfold change_details. rewrite Hctl. reflexivity.
Qed.

Lemma contains_nil (tok : string) : contains tok [] = false.
Proof. unfold contains. apply bool_decide_eq_false. apply not_elem_of_nil. Qed.

(** A turn of the loop on an entry whose record is [r]. *)
Lemma analyse_change_classify (st : acc) (c : change) (r : resource) :
  change_details c (actions_of c) = Ok r ->
  analyse_change st c = Ok (classify (actions_of c) r st).
Proof.
  intros Hr. unfold analyse_change, classify. rewrite Hr.
  destruct (contains "create" _), (contains "update" _), (contains "delete" _),
    (contains "replace" _), (contains "no-op" _); reflexivity.
Qed.

(** A turn of the loop on an entry without actions changes nothing. *)
Lemma analyse_change_no_action (st : acc) (c : change) :
  actions_of c = [] -> analyse_change st c = Ok st.
Proof.
  intros Hnil. unfold analyse_change. rewrite Hnil, !contains_nil. reflexivity.
Qed.

Lemma analyse_change_ok (st : acc) (c : change) :
  exists st', analyse_change st c = Ok st' /\
    (actions_of c = [] /\ st' = st \/
     exists r, change_details c (actions_of c) = Ok r /\
               st' = classify (actions_of c) r st).
Proof.
  destruct (actions_of c) as [|first rest] eqn:Hact.
  - exists st. split; [by apply analyse_change_no_action | by left].
  - destruct (change_details_ok c (first :: rest)) as [r Hr]; [done|].
    exists (classify (first :: rest) r st). rewrite <- Hact in *.
    split; [by apply analyse_change_classify | right; eauto].
Qed.

Lemma classify_counters_match (action : list string) (r : resource) (st : acc) :
  counters_match st -> counters_match (classify action r st).
Proof.
  destruct st as [cd s]. unfold counters_match, classify.
  destruct (contains "create" _), (contains "update" _), (contains "delete" _),
    (contains "replace" _), (contains "no-op" _);
    cbn; rewrite ?length_app; cbn; lia.
Qed.

End ClassifierFacts.

(** C2, as the specification has it, fails: for the single entry
    [noop_change], whose actions are [["no-op"]], the batch does not have six
    empty lists. *)
Lemma C2_noop_batch_lists_not_all_empty :
  ~ (exists cd s,
       analyse_plan (order := elements_order) noop_plan "resource_changes"
         = Ok (Some (cd, s)) /\
       l_create_and_delete cd = [] /\ l_create cd = [] /\ l_update cd = [] /\
       l_delete cd = [] /\ l_replace cd = [] /\ l_no_op cd = [] /\
       s = mkSummary 0 0 0 0 1).
Proof.
  intros (cd & s & Hrun & _ & _ & _ & _ & _ & Hnoop & _).
  vm_compute in Hrun. injection Hrun as <- _. discriminate Hnoop.
Qed.

(** C2, amended: for a section that consists of one entry whose actions are
    [["no-op"]], the five lists other than [no_op] are empty, the [no_op]
    list holds the normalized record of the entry, which is the non-control
    record, the [no_op] counter is 1 and the other counters are 0. *)
Theorem C2_noop_batch `{SetOrder} (plan : gmap string (list change))
    (type_of_change : string) (c : change) :
  plan !! type_of_change = Some [c] ->
  actions_of c = ["no-op"] ->
  analyse_plan plan type_of_change =
    Ok (Some (mkChanges [] [] [] [] [] [non_control_record c],
              mkSummary 0 0 0 0 1)).
Proof.
  intros Hplan Hact. unfold analyse_plan. rewrite Hplan. simpl default. cbn [for_each].
  assert (change_details c (actions_of c) = Ok (non_control_record c)) as Hr.
  { apply change_details_non_control; rewrite Hact; [done | reflexivity]. }
  rewrite (analyse_change_classify _ _ _ Hr), Hact. reflexivity.
Qed.

Lemma C2_noop_batch_witness :
  noop_plan !! "resource_changes" = Some [noop_change] /\
  actions_of noop_change = ["no-op"] /\
  analyse_plan (order := elements_order) noop_plan "resource_changes" =
    Ok (Some (mkChanges [] [] [] [] [] [non_control_record noop_change],
              mkSummary 0 0 0 0 1)).
Proof.
  split; [reflexivity|]. split; [reflexivity|].
  apply (@C2_noop_batch elements_order noop_plan "resource_changes" noop_change);
    reflexivity.
Defined.

(** C3, as the specification has it, fails: the normalized record of the
    non-control entry [noop_change] has no difference set, yet its
    differences field is not [None]: it is the empty dict. *)
Lemma C3_non_control_differences_present :
  ~ (forall r, change_details (order := elements_order) noop_change ["no-op"] = Ok r ->
               r_differences r = DiffNone).
Proof.
  intros Hclaim. specialize (Hclaim (non_control_record noop_change) eq_refl).
  discriminate Hclaim.
Qed.

(** C3, amended: in the normalized record of a control entry the differences
    field is [None] when the three mappings of the computed difference set
    are empty, and is that difference set otherwise; the normalized record of
    a non-control entry has empty before and after and, as its differences
    field, the empty dict [{}], which is present and empty. *)
Theorem C3_differences_field `{SetOrder} (c : change) (action : list string)
    (r : resource) :
  change_details c action = Ok r ->
  (is_control action = true ->
   exists d,
     find_differences
       (default (VDict []) (cb_before (default empty_body (ch_change c))))
       (default (VDict []) (cb_after (default empty_body (ch_change c)))) "" = Ok d /\
     (all_empty d -> r_differences r = DiffNone) /\
     (~ all_empty d -> r_differences r = DiffSet d)) /\
  (is_control action = false ->
   r_before r = VDict [] /\ r_after r = VDict [] /\
   r_differences r = DiffEmptyDict).
Proof.
  destruct action as [|first rest]; [discriminate|].
  unfold change_details, is_control.
  destruct (contains first control_actions); intros Hr;
    (split; [|intros Hctl]); try discriminate.
  - intros _. unfold get_the_differences in Hr.
    destruct (find_differences _ _ "") as [d|e]; [|discriminate].
    exists d. split; [done|]. cbn [bind] in Hr.
    unfold nonempty, all_empty in *.
    destruct (decide (dom (added d) = ∅)) as [Ha|Ha];
      [destruct (decide (dom (removed d) = ∅)) as [Hrm|Hrm];
        [destruct (decide (dom (changed d) = ∅)) as [Hc|Hc]|]|].
    + rewrite !bool_decide_eq_true_2 in Hr by done. injection Hr as <-.
      split; [done|]. intros Hne. contradict Hne.
      by rewrite <- !(dom_empty_iff_L (M := gmap string)).
    + rewrite (bool_decide_eq_false_2 _ Hc), orb_true_r in Hr. injection Hr as <-.
      split; [|done]. intros (_ & _ & Hd). by rewrite Hd, dom_empty_L in Hc.
    + rewrite (bool_decide_eq_false_2 _ Hrm), orb_true_r in Hr. injection Hr as <-.
      split; [|done]. intros (_ & Hd & _). by rewrite Hd, dom_empty_L in Hrm.
    + rewrite (bool_decide_eq_false_2 _ Ha) in Hr. injection Hr as <-.
      split; [|done]. intros (Hd & _ & _). by rewrite Hd, dom_empty_L in Ha.
  - injection Hr as <-. done.
Qed.

Lemma C3_differences_field_witness :
  (change_details (order := elements_order) noop_change ["no-op"]
     = Ok (non_control_record noop_change) /\
   (is_control ["no-op"] = false ->
    r_before (non_control_record noop_change) = VDict [] /\
    r_after (non_control_record noop_change) = VDict [] /\
    r_differences (non_control_record noop_change) = DiffEmptyDict)) /\
  (exists r,
     change_details (order := elements_order) recreate_change ["create"; "delete"]
       = Ok r /\
     (is_control ["create"; "delete"] = true ->
      exists d,
        find_differences (order := elements_order)
          (VDict [("size", VInt 8)]) (VDict [("size", VInt 16)]) "" = Ok d /\
        (all_empty d -> r_differences r = DiffNone) /\
        (~ all_empty d -> r_differences r = DiffSet d))).
Proof.
  split.
  - split; [reflexivity|].
    apply (proj2 (@C3_differences_field elements_order noop_change ["no-op"]
                    (non_control_record noop_change) eq_refl)).
  - eexists. split; [vm_compute; reflexivity|].
    apply (proj1 (@C3_differences_field elements_order recreate_change
                    ["create"; "delete"] _ eq_refl)).
Defined.

(** C6: an entry whose first action is ["no-op"] and whose actions contain
    ["update"] is not diffed: its normalized record has empty before and
    after and no difference set; yet the turn of the loop adds one to the
    [update] counter and appends that record to the [update] list. *)
Theorem C6_noop_first_still_update `{SetOrder} (c : change) (rest : list string)
    (st : acc) :
  actions_of c = "no-op" :: rest ->
  "update" ∈ rest ->
  exists r st',
    change_details c (actions_of c) = Ok r /\
    r_before r = VDict [] /\ r_after r = VDict [] /\
    r_differences r = DiffEmptyDict /\
    analyse_change st c = Ok st' /\
    s_update (snd st') = S (s_update (snd st)) /\
    l_update (fst st') = (l_update (fst st) ++ [r])%list.
Proof.
  intros Hact Hupd.
  assert (change_details c (actions_of c) = Ok (non_control_record c)) as Hr.
  { apply change_details_non_control; rewrite Hact; [done | reflexivity]. }
  exists (non_control_record c), (classify (actions_of c) (non_control_record c) st).
  repeat split; try done.
  - by apply analyse_change_classify.
  - unfold classify. destruct st as [cd s].
    replace (contains "update" (actions_of c)) with true
      by (symmetry; apply bool_decide_eq_true; rewrite Hact; by right).
    destruct (contains "create" _), (contains "delete" _),
      (contains "replace" _), (contains "no-op" _); reflexivity.
  - unfold classify. destruct st as [cd s].
    replace (contains "update" (actions_of c)) with true
      by (symmetry; apply bool_decide_eq_true; rewrite Hact; by right).
    destruct (contains "create" _), (contains "delete" _),
      (contains "replace" _), (contains "no-op" _); reflexivity.
Qed.

Lemma C6_noop_first_still_update_witness :
  actions_of noop_update_change = "no-op" :: ["update"] /\
  "update" ∈ ["update"] /\
  exists r st',
    change_details (order := elements_order) noop_update_change
      (actions_of noop_update_change) = Ok r /\
    r_before r = VDict [] /\ r_after r = VDict [] /\
    r_differences r = DiffEmptyDict /\
    analyse_change (order := elements_order) (changes_dict0, summary0)
      noop_update_change = Ok st' /\
    s_update (snd st') = 1%nat /\
    l_update (fst st') = [r].
Proof.
  split; [reflexivity|]. split; [left|].
  apply (@C6_noop_first_still_update elements_order noop_update_change ["update"]
           (changes_dict0, summary0)); [reflexivity | left].
Defined.

(** C7: an entry whose actions contain both ["create"] and ["delete"] is
    appended to the [create_and_delete] list, adds one to the [create]
    counter and one to the [delete] counter, and is appended neither to the
    [create] list nor to the [delete] list. *)
Theorem C7_create_and_delete `{SetOrder} (c : change) (st : acc) :
  "create" ∈ actions_of c ->
  "delete" ∈ actions_of c ->
  exists r st',
    change_details c (actions_of c) = Ok r /\
    analyse_change st c = Ok st' /\
    l_create_and_delete (fst st') = (l_create_and_delete (fst st) ++ [r])%list /\
    s_create (snd st') = S (s_create (snd st)) /\
    s_delete (snd st') = S (s_delete (snd st)) /\
    l_create (fst st') = l_create (fst st) /\
    l_delete (fst st') = l_delete (fst st).
Proof.
  intros Hc Hd.
  destruct (change_details_ok c (actions_of c)) as [r Hr].
  { intros Hnil. rewrite Hnil in Hc. by apply not_elem_of_nil in Hc. }
  exists r, (classify (actions_of c) r st).
  split; [done|]. split; [by apply analyse_change_classify|].
  unfold classify. destruct st as [cd s].
  replace (contains "create" (actions_of c)) with true
    by (symmetry; by apply bool_decide_eq_true).
  replace (contains "delete" (actions_of c)) with true
    by (symmetry; by apply bool_decide_eq_true).
  destruct (contains "update" _), (contains "replace" _), (contains "no-op" _);
    repeat split; reflexivity.
Qed.

Lemma C7_create_and_delete_witness :
  "create" ∈ actions_of recreate_change /\
  "delete" ∈ actions_of recreate_change /\
  exists r st',
    change_details (order := elements_order) recreate_change
      (actions_of recreate_change) = Ok r /\
    analyse_change (order := elements_order) (changes_dict0, summary0)
      recreate_change = Ok st' /\
    l_create_and_delete (fst st') = [r] /\
    s_create (snd st') = 1%nat /\
    s_delete (snd st') = 1%nat /\
    l_create (fst st') = [] /\
    l_delete (fst st') = [].
Proof.
  split; [left|]. split; [right; left|].
  apply (@C7_create_and_delete elements_order recreate_change (changes_dict0, summary0));
    [left | right; left].
Defined.

(** C10: the classification of a section that is not empty returns, and in
    what it returns the [update], [replace] and [no_op] counters are the
    lengths of the lists of the same name, the [create] counter is the
    length of the [create] list plus that of the [create_and_delete] list,
    and the [delete] counter is the length of the [delete] list plus that of
    the [create_and_delete] list. *)
Theorem C10_counters_and_lengths `{SetOrder} (plan : gmap string (list change))
    (type_of_change : string) (changes : list change) :
  plan !! type_of_change = Some changes ->
  changes <> [] ->
  exists cd s,
    analyse_plan plan type_of_change = Ok (Some (cd, s)) /\
    s_update s = length (l_update cd) /\
    s_replace s = length (l_replace cd) /\
    s_no_op s = length (l_no_op cd) /\
    s_create s = (length (l_create cd) + length (l_create_and_delete cd))%nat /\
    s_delete s = (length (l_delete cd) + length (l_create_and_delete cd))%nat.
Proof.
  intros Hplan Hne. unfold analyse_plan. rewrite Hplan. simpl default.
  destruct (for_each_invariant counters_match analyse_change changes
              (changes_dict0, summary0)) as ([cd s] & Hrun & Hinv).
  - repeat split.
  - intros st c _ Hst.
    destruct (analyse_change_ok st c) as (st' & Hstep & [[_ ->]|(r & _ & ->)]);
      eexists; (split; [exact Hstep|]); [done | by apply classify_counters_match].
  - exists cd, s. rewrite Hrun. destruct changes; [done|]. split; [reflexivity|].
    exact Hinv.
Qed.

Lemma C10_counters_and_lengths_witness :
  noop_plan !! "resource_changes" = Some [noop_change] /\
  [noop_change] <> [] /\
  exists cd s,
    analyse_plan (order := elements_order) noop_plan "resource_changes"
      = Ok (Some (cd, s)) /\
    s_update s = length (l_update cd) /\
    s_replace s = length (l_replace cd) /\
    s_no_op s = length (l_no_op cd) /\
    s_create s = (length (l_create cd) + length (l_create_and_delete cd))%nat /\
    s_delete s = (length (l_delete cd) + length (l_create_and_delete cd))%nat.
Proof.
  split; [reflexivity|]. split; [discriminate|].
  apply (@C10_counters_and_lengths elements_order noop_plan "resource_changes"
           [noop_change]); [reflexivity | discriminate].
Defined.

(* ===================================================================== *)
(** ** The diff engine: loops in closed form, comparison *)
(* ===================================================================== *)

Lemma rmap_bind {A B C : Type} (f : B -> C) (r : result A) (k : A -> result B) :
  rmap f (bind r k) = bind r (fun a => rmap f (k a)).
Proof. by destruct r. Qed.

Lemma bind_rmap {A B C : Type} (f : A -> B) (r : result A) (k : B -> result C) :
  bind (rmap f r) k = bind r (fun a => k (f a)).
Proof. by destruct r. Qed.

(** Two loops that run in step, one on the image of the state and of the
    elements of the other, end in step. *)
Lemma for_each_rmap {A A' S S' : Type} (f : S -> S') (g : A -> A')
    (body : S -> A -> result S) (body' : S' -> A' -> result S')
    (l : list A) (s : S) :
  (forall s x, x ∈ l -> body' (f s) (g x) = rmap f (body s x)) ->
  for_each body' (map g l) (f s) = rmap f (for_each body l s).
Proof.
  revert s. induction l as [|x l IH]; intros s Hstep; simpl; [done|].
  rewrite Hstep by left. destruct (body s x) as [s1|e]; simpl; [|done].
  apply IH. intros s2 y Hy. apply Hstep. by right.
Qed.

Lemma for_each_set_added (path : string) (a : list (string * Value))
    (keys : list string) (d : Differences) :
  (forall k, k ∈ keys -> k ∈ key_set a) ->
  for_each (fun d key => v <- getitem a key ;; Ok (set_added (key_path path key) v d))
           keys d
  = Ok (mkDifferences (insert_all path a keys (added d)) (removed d) (changed d)).
Proof.
  revert d. induction keys as [|k keys IH]; intros d Hin; simpl.
  - by destruct d.
  - destruct (getitem_key_set a k) as (v & -> & Hv); [apply Hin; left|].
    cbn [bind]. rewrite IH by (intros; apply Hin; by right).
    unfold insert_all. simpl. by rewrite Hv.
Qed.

Lemma for_each_set_removed (path : string) (b : list (string * Value))
    (keys : list string) (d : Differences) :
  (forall k, k ∈ keys -> k ∈ key_set b) ->
  for_each (fun d key => v <- getitem b key ;; Ok (set_removed (key_path path key) v d))
           keys d
  = Ok (mkDifferences (added d) (insert_all path b keys (removed d)) (changed d)).
Proof.
  revert d. induction keys as [|k keys IH]; intros d Hin; simpl.
  - by destruct d.
  - destruct (getitem_key_set b k) as (v & -> & Hv); [apply Hin; left|].
    cbn [bind]. rewrite IH by (intros; apply Hin; by right).
    unfold insert_all. simpl. by rewrite Hv.
Qed.

(** The entries of [insert_all]: those that were there, and one for each key. *)
Lemma insert_all_lookup (path : string) (items : list (string * Value))
    (keys : list string) (m : gmap string Value) (p : string) (v : Value) :
  (forall k, k ∈ keys -> k ∈ key_set items) ->
  insert_all path items keys m !! p = Some v ->
  m !! p = Some v \/
  exists k, k ∈ keys /\ p = key_path path k /\ dict_get items k = Some v.
Proof.
  revert m. induction keys as [|k keys IH]; intros m Hin; simpl; [by left|].
  intros Hp. destruct (IH _ (fun k' Hk' => Hin k' (list_elem_of_further _ _ _ Hk')) Hp)
    as [Hm|(k' & Hk' & -> & Hv)].
  - destruct (decide (key_path path k = p)) as [<-|Hne].
    + rewrite lookup_insert_eq in Hm. injection Hm as <-.
      right. exists k. split; [left|]. split; [done|].
      destruct (getitem_key_set items k) as (w & _ & ->); [apply Hin; left|]. done.
    + rewrite lookup_insert_ne in Hm by done. by left.
  - right. exists k'. split; [by right | done].
Qed.


Lemma insert_all_dom (path : string) (items : list (string * Value))
    (keys : list string) (m : gmap string Value) (p : string) :
  p ∈ dom (insert_all path items keys m) <->
  p ∈ dom m \/ exists k, k ∈ keys /\ p = key_path path k.
Proof.
  unfold insert_all. revert m. induction keys as [|k keys IH]; intros m; simpl.
  - split; [by left|]. intros [H|(k & Hk & _)]; [done | by apply not_elem_of_nil in Hk].
  - rewrite IH, dom_insert, elem_of_union, elem_of_singleton.
    split.
    + intros [[->|H]|(k' & Hk' & ->)]; [right | by left | right].
      * exists k. split; [left | done].
      * exists k'. split; [by right | done].
    + intros [H|(k' & [->|Hk']%elem_of_cons & ->)]; [left; by right | left; by left |].
      right. eauto.
Qed.

(** [x != y] does not depend on the side, when the two are not both
    mappings and not both sequences, the only case in which
    [find_differences] compares. *)
Lemma num_eqb_sym (p q : Z * Z) : num_eqb p q = num_eqb q p.
Proof. unfold num_eqb. rewrite (Z.min_comm (snd q)). apply Z.eqb_sym. Qed.

Lemma num_eqb_refl (p : Z * Z) : num_eqb p p = true.
Proof. unfold num_eqb. apply Z.eqb_refl. Qed.

Lemma py_ne_sym (x y : Value) :
  is_dict x && is_dict y = false ->
  is_list x && is_list y = false ->
  py_ne x y = py_ne y x.
Proof.
  unfold py_ne. intros Hd Hl. f_equal.
  destruct x, y; try discriminate; try reflexivity;
    cbn [py_eq numeric]; auto using num_eqb_sym, String.eqb_sym;
    repeat match goal with b : bool |- _ => destruct b end; reflexivity.
Qed.

(** A value that is not [NaN] is equal to itself. *)
Lemma py_ne_refl (x : Value) :
  is_dict x = false -> is_list x = false -> no_nan x = true -> py_ne x x = false.
Proof.
  unfold py_ne. intros Hd Hl Hn.
  destruct x; try discriminate; cbn [py_eq numeric];
    rewrite ?num_eqb_refl, ?String.eqb_refl, ?Bool.eqb_reflx; reflexivity.
Qed.

Lemma for_each_rmap_same {A S S' : Type} (f : S -> S')
    (body : S -> A -> result S) (body' : S' -> A -> result S')
    (l : list A) (s : S) :
  (forall s x, x ∈ l -> body' (f s) x = rmap f (body s x)) ->
  for_each body' l (f s) = rmap f (for_each body l s).
Proof.
  intros Hstep. rewrite <- (map_id l) at 1. by apply for_each_rmap.
Qed.

Lemma enumerate_zip_swap (i : nat) (b a : list Value) :
  enumerate_zip i a b
  = map (fun e : nat * (Value * Value) => (fst e, prod_swap (snd e)))
        (enumerate_zip i b a).
Proof.
  revert i a. induction b as [|x b IH]; intros i [|y a]; simpl; try done.
  by rewrite IH.
Qed.

Lemma enumerate_zip_diag (i j : nat) (l : list Value) (x y : Value) :
  (j, (x, y)) ∈ enumerate_zip i l l -> x = y.
Proof.
  revert i. induction l as [|u l IH]; intros i; simpl.
  - intros H. by apply not_elem_of_nil in H.
  - rewrite elem_of_cons. intros [H|H]; [congruence | eauto].
Qed.

Lemma swap_merge (d sub : Differences) :
  swap_differences (merge d sub) = merge (swap_differences d) (swap_differences sub).
Proof.
  unfold swap_differences, merge, update. simpl. f_equal.
  apply map_fmap_union.
Qed.

Lemma swap_no_differences : swap_differences no_differences = no_differences.
Proof. unfold swap_differences, no_differences. simpl. by rewrite fmap_empty. Qed.

Lemma merge_no_differences (d : Differences) : merge d no_differences = d.
Proof.
  destruct d. unfold merge, update. simpl. by rewrite !(left_id_L ∅ (∪)).
Qed.

Lemma no_nan_dict_get (items : list (string * Value)) (k : string) (v : Value) :
  no_nan (VDict items) = true -> dict_get items k = Some v -> no_nan v = true.
Proof.
  simpl. induction items as [|[k' v'] items IH]; simpl; [done|].
  intros [Hv Hrest]%andb_prop.
  destruct (String.eqb k' k); [by intros [= <-] | auto].
Qed.

Lemma no_nan_list_elem (l : list Value) (x : Value) :
  no_nan (VList l) = true -> In x l -> no_nan x = true.
Proof. simpl. intros Hall Hx. by apply (proj1 (forallb_forall _ _) Hall). Qed.

Lemma enumerate_zip_members (i j : nat) (b a : list Value) (x y : Value) :
  (j, (x, y)) ∈ enumerate_zip i b a -> In x b /\ In y a.
Proof.
  revert i a. induction b as [|u b IH]; intros i [|w a]; simpl;
    try (intros H; by apply not_elem_of_nil in H).
  rewrite elem_of_cons. intros [[= -> -> ->]|Hin]; [auto|].
  destruct (IH _ _ Hin). auto.
Qed.

Section DiffEngineShape.
Context {order : SetOrder}.

(** The two loops over the keys of one side only, in closed form. *)
Lemma find_differences_fuel_dict (fuel : nat) (b a : list (string * Value))
    (path : string) :
  find_differences_fuel (S fuel) (VDict b) (VDict a) path =
  for_each
    (fun d key =>
       bv <- getitem b key ;;
       av <- getitem a key ;;
       sub_diff <- find_differences_fuel fuel bv av (key_path path key) ;;
       Ok (merge d sub_diff))
    (set_iter (SetInter (keys_of b) (keys_of a)))
    (mkDifferences (insert_all path a (set_iter (SetDiff (keys_of a) (keys_of b))) ∅)
                   (insert_all path b (set_iter (SetDiff (keys_of b) (keys_of a))) ∅)
                   ∅).
Proof.
  cbn [find_differences_fuel].
  rewrite for_each_set_added
    by (by intros k [? _]%set_iter_difference).
  cbn [bind].
  rewrite for_each_set_removed
    by (by intros k [? _]%set_iter_difference).
  reflexivity.
Qed.

(** Neither two mappings nor two sequences: one comparison. *)
Lemma find_differences_fuel_other (fuel : nat) (before after : Value) (path : string) :
  is_dict before && is_dict after = false ->
  is_list before && is_list after = false ->
  find_differences_fuel (S fuel) before after path =
  Ok (if py_ne before after
      then set_changed path before after no_differences
      else no_differences).
Proof.
  intros Hd Hl.
  destruct before, after; try discriminate; cbn [find_differences_fuel];
    by destruct (py_ne _ _).
Qed.

(** A value without [NaN] has no difference with itself. *)
Lemma find_differences_fuel_diag (fuel : nat) :
  forall (v : Value) (path : string),
    (height v < fuel)%nat ->
    no_nan v = true ->
    find_differences_fuel fuel v v path = Ok no_differences.
Proof.
  induction fuel as [|fuel IH]; intros v path Hfuel Hnan; [lia|].
  destruct v as [| | | | |l|items| | |];
    try discriminate;
    try (rewrite find_differences_fuel_other, py_ne_refl by done; done).
  - (* a list *)
    cbn [find_differences_fuel].
    destruct (for_each_invariant (fun d => d = no_differences)
      (fun d '(i, (b_item, a_item)) =>
         sub_diff <- find_differences_fuel fuel b_item a_item (index_path path i) ;;
         Ok (merge d sub_diff))
      (enumerate_zip 0 l l) no_differences) as (d1 & -> & ->); [done| |].
    { intros d [i [x y]] Hin ->.
      pose proof (enumerate_zip_diag _ _ _ _ _ Hin) as <-.
      destruct (enumerate_zip_height _ _ _ _ _ _ Hin) as [Hx _].
      rewrite IH; [simpl; eauto using merge_no_differences | lia |].
      apply enumerate_zip_members in Hin as [Hin _].
      by apply (no_nan_list_elem l). }
    cbn [bind]. by rewrite Nat.ltb_irrefl.
  - (* a dict *)
    rewrite find_differences_fuel_dict.
    rewrite (set_iter_nil (SetDiff (keys_of items) (keys_of items)))
      by apply gset_difference_diag.
    destruct (for_each_invariant (fun d => d = no_differences)
      (fun d key =>
         bv <- getitem items key ;;
         av <- getitem items key ;;
         sub_diff <- find_differences_fuel fuel bv av (key_path path key) ;;
         Ok (merge d sub_diff))
      (set_iter (SetInter (keys_of items) (keys_of items))) no_differences)
      as (d1 & Hrun & ->); [done| |exact Hrun].
    intros d k [Hk _]%set_iter_intersection ->.
    destruct (getitem_key_set items k Hk) as (v & -> & Hv).
    pose proof (no_nan_dict_get items k v Hnan Hv) as Hnv.
    apply dict_get_height in Hv.
    cbn [bind]. rewrite IH by (done || lia). simpl. eauto using merge_no_differences.
Qed.

End DiffEngineShape.

(** Exchanging before and after exchanges the roles in the result, when the
    common keys are iterated in the same order in both directions: the
    order of one direction is the mirror of the order of the other. *)
Lemma find_differences_fuel_swap (o : SetOrder) (fuel : nat) :
  forall (before after : Value) (path : string),
    @find_differences_fuel o fuel after before path
    = rmap swap_differences
        (@find_differences_fuel (mirror_order o) fuel before after path).
Proof.
  induction fuel as [|fuel IH]; intros before after path; [done|].
  destruct (is_dict before && is_dict after) eqn:Hd;
    [|destruct (is_list before && is_list after) eqn:Hl].
  - (* two dicts *)
    destruct before as [| | | | | |b| | |], after as [| | | | | |a| | |]; try discriminate.
    rewrite (@find_differences_fuel_dict o),
      (@find_differences_fuel_dict (mirror_order o)).
    change (@set_iter (mirror_order o) (SetInter (keys_of b) (keys_of a)))
      with (@set_iter o (SetInter (keys_of a) (keys_of b))).
    change (@set_iter (mirror_order o) (SetDiff (keys_of a) (keys_of b)))
      with (@set_iter o (SetDiff (keys_of a) (keys_of b))).
    change (@set_iter (mirror_order o) (SetDiff (keys_of b) (keys_of a)))
      with (@set_iter o (SetDiff (keys_of b) (keys_of a))).
    change (mkDifferences (insert_all path b (set_iter (SetDiff (keys_of b) (keys_of a))) ∅)
                          (insert_all path a (set_iter (SetDiff (keys_of a) (keys_of b))) ∅) ∅)
      with (mkDifferences
              (removed (mkDifferences
                 (insert_all path a (set_iter (SetDiff (keys_of a) (keys_of b))) ∅)
                 (insert_all path b (set_iter (SetDiff (keys_of b) (keys_of a))) ∅) ∅))
              (added (mkDifferences
                 (insert_all path a (set_iter (SetDiff (keys_of a) (keys_of b))) ∅)
                 (insert_all path b (set_iter (SetDiff (keys_of b) (keys_of a))) ∅) ∅))
              ∅).
    rewrite <- (fmap_empty (M := gmap string) prod_swap).
    apply (for_each_rmap_same swap_differences).
    intros d k [Hka Hkb]%set_iter_intersection.
    destruct (getitem_key_set b k Hkb) as (bv & -> & _).
    destruct (getitem_key_set a k Hka) as (av & -> & _).
    cbn [bind]. rewrite IH, bind_rmap, rmap_bind.
    destruct (@find_differences_fuel (mirror_order o) fuel bv av _); simpl; [|done].
    by rewrite swap_merge.
  - (* two lists *)
    destruct before as [| | | | |b| | | |], after as [| | | | |a| | | |]; try discriminate.
    cbn [find_differences_fuel].
    rewrite enumerate_zip_swap, <- swap_no_differences at 1.
    rewrite (for_each_rmap swap_differences _
      (fun d '(i, (b_item, a_item)) =>
         sub_diff <- @find_differences_fuel (mirror_order o) fuel b_item a_item
                       (index_path path i) ;;
         Ok (merge d sub_diff))).
    2:{ intros d [i [x y]] _. cbn. rewrite IH, bind_rmap, rmap_bind.
        destruct (@find_differences_fuel (mirror_order o) fuel x y _); simpl; [|done].
        by rewrite swap_merge. }
    rewrite bind_rmap, rmap_bind.
    destruct (for_each _ (enumerate_zip 0 b a) no_differences) as [d1|e];
      cbn [bind]; [|done].
    destruct (Nat.ltb_spec (length b) (length a)) as [Hlt|Hge].
    + replace (length a <? length b)%nat with false
        by (symmetry; apply Nat.ltb_ge; lia).
      apply (for_each_rmap_same swap_differences).
      intros d i _. by destruct (list_getitem a i).
    + destruct (length a <? length b)%nat; [|done].
      apply (for_each_rmap_same swap_differences).
      intros d i _. by destruct (list_getitem b i).
  - (* one comparison *)
    rewrite !find_differences_fuel_other
      by (rewrite 1?(andb_comm (is_dict after)), 1?(andb_comm (is_list after)); done).
    rewrite (py_ne_sym after before)
      by (rewrite 1?(andb_comm (is_dict after)), 1?(andb_comm (is_list after)); done).
    simpl. destruct (py_ne before after); [|by rewrite swap_no_differences].
    unfold swap_differences, set_changed, no_differences. simpl.
    by rewrite fmap_insert, fmap_empty.
Qed.

(** C5, as the specification has it, fails: given a value that is not a
    mapping, a sequence or a scalar, the engine does not fail; it goes on to
    compare. *)
Lemma C5_unclassified_value_not_rejected :
  tree_shaped (VOther "tuple") = false /\
  ~ (exists e, find_differences (order := elements_order) (VOther "tuple") (VInt 1) ""
               = Raise e).
Proof.
  split; [reflexivity|]. intros [e He]. vm_compute in He. discriminate He.
Qed.

(** C5, amended: the engine has no failure of its own.  On every pair of
    values and every path it returns a difference set; and a pair that is
    neither two mappings nor two sequences, whatever the kinds of the two
    values, is compared with [!=] and yields at most one entry of [changed]. *)
Theorem C5_never_raises `{SetOrder} (before after : Value) (path : string) :
  (exists d, find_differences before after path = Ok d) /\
  (is_dict before && is_dict after = false ->
   is_list before && is_list after = false ->
   find_differences before after path =
     Ok (if py_ne before after
         then set_changed path before after no_differences
         else no_differences)).
Proof.
  split; [apply find_differences_ok|].
  intros Hd Hl. by apply find_differences_fuel_other.
Qed.

Lemma C5_never_raises_witness :
  is_dict (VOther "tuple") && is_dict (VInt 1) = false /\
  is_list (VOther "tuple") && is_list (VInt 1) = false /\
  find_differences (order := elements_order) (VOther "tuple") (VInt 1) "" =
    Ok (set_changed "" (VOther "tuple") (VInt 1) no_differences).
Proof.
  split; [reflexivity|]. split; [reflexivity|].
  apply (proj2 (@C5_never_raises elements_order (VOther "tuple") (VInt 1) ""));
    reflexivity.
Defined.

(** C8, as the specification has it, fails: [nan_state] is a mapping with a
    number in it, and its difference with itself is not no differences: the
    number is [NaN], which [!=] tells apart from itself, so that the path of
    its key is in [changed]. *)
Lemma C8_nan_differs_from_itself :
  tree_shaped nan_state = true /\
  get_the_differences (order := elements_order) nan_state nan_state
    = Ok (Some (mkDifferences ∅ ∅ {[ "ratio" := (VNaN, VNaN) ]})) /\
  ~ (get_the_differences (order := elements_order) nan_state nan_state = Ok None).
Proof.
  split; [reflexivity|].
  assert (get_the_differences (order := elements_order) nan_state nan_state
          = Ok (Some (mkDifferences ∅ ∅ {[ "ratio" := (VNaN, VNaN) ]}))) as Hrun
    by (vm_compute; reflexivity).
  split; [exact Hrun|]. rewrite Hrun. discriminate.
Qed.

(** C8, amended: the difference of a value that holds no [NaN] with itself,
    taken at the root path, is no differences: the three mappings are empty
    and [get_the_differences] returns [None]. *)
Theorem C8_diff_with_itself `{SetOrder} (v : Value) :
  no_nan v = true ->
  find_differences v v "" = Ok no_differences /\
  get_the_differences v v = Ok None.
Proof.
  intros Hnan.
  assert (find_differences v v "" = Ok no_differences) as Hd.
  { apply find_differences_fuel_diag; [lia | done]. }
  split; [done|]. unfold get_the_differences. by rewrite Hd.
Qed.

Lemma C8_diff_with_itself_witness :
  no_nan plain_before = true /\
  find_differences (order := elements_order) plain_before plain_before ""
    = Ok no_differences /\
  get_the_differences (order := elements_order) plain_before plain_before = Ok None.
Proof.
  split; [reflexivity|].
  apply (@C8_diff_with_itself elements_order plain_before). reflexivity.
Defined.

(* ===================================================================== *)
(** ** An entity that is all new, or all removed *)
(* ===================================================================== *)





Lemma key_set_nil : key_set [] = ∅.
Proof. reflexivity. Qed.



Lemma nonempty_true {V : Type} (m : gmap string V) (p : string) :
  is_Some (m !! p) -> nonempty m = true.
Proof.
  intros Hp. unfold nonempty. rewrite bool_decide_eq_false_2; [done|].
  intros Hdom. apply elem_of_dom in Hp. rewrite Hdom in Hp.
  by apply not_elem_of_empty in Hp.
Qed.


Section NewEntity.
Context {order : SetOrder}.







End NewEntity.




(* ===================================================================== *)
(** ** Paths of plain keys *)
(* ===================================================================== *)

#[local] Arguments String.append !s1 s2 : simpl nomatch.

Lemma string_app_assoc (s1 s2 s3 : string) : (s1 ++ s2) ++ s3 = s1 ++ (s2 ++ s3).
Proof. induction s1 as [|c s1 IH]; simpl; [done | by rewrite IH]. Qed.

Lemma string_app_nil_r (s : string) : s ++ "" = s.
Proof. induction s as [|c s IH]; simpl; [done | by rewrite IH]. Qed.

Lemma string_app_inv_head (s t1 t2 : string) : s ++ t1 = s ++ t2 -> t1 = t2.
Proof. induction s as [|c s IH]; simpl; [done|]. intros [= H]. auto. Qed.

Lemma rstrip_app (c : ascii) (s1 s2 : string) :
  s2 <> "" -> rstrip c s2 = s2 -> rstrip c (s1 ++ s2) = s1 ++ s2.
Proof.
  intros Hne Hs2. induction s1 as [|a s1 IH]; simpl; [done|].
  rewrite IH. destruct (s1 ++ s2) eqn:E; [|done].
  destruct s1; simpl in E; [congruence | discriminate].
Qed.

Lemma rstrip_no_separator (k : string) :
  no_separator k = true -> rstrip "." k = k.
Proof.
  induction k as [|a k IH]; simpl; [done|].
  intros [[Hdot _]%andb_prop Hk]%andb_prop. rewrite (IH Hk).
  destruct k; [|done]. by apply negb_true_iff in Hdot as ->.
Qed.

Lemma plain_key_inv (k : string) :
  plain_key k = true ->
  k <> "" /\ no_separator k = true /\ starts_with "." k = false /\
  starts_with "[" k = false.
Proof.
  unfold plain_key. intros [Hne Hk]%andb_prop.
  destruct k as [|a k]; [discriminate|]. split; [done|]. split; [done|].
  simpl in *. apply andb_prop in Hk as [[Hdot Hbr]%andb_prop _].
  by apply negb_true_iff in Hdot, Hbr.
Qed.

(** The path of a plain key under a path that does not begin with a dot. *)
Lemma key_path_plain (p k : string) :
  starts_with "." p = false -> plain_key k = true ->
  key_path p k = if String.eqb p "" then k else p ++ "." ++ k.
Proof.
  intros Hp (Hne & Hk & Hdot & _)%plain_key_inv. unfold key_path, strip.
  destruct p as [|a p]; simpl.
  - destruct k as [|b k]; [done|]. simpl in Hdot. cbn [lstrip]. rewrite Hdot.
    by apply rstrip_no_separator.
  - simpl in Hp. rewrite Hp.
    apply (rstrip_app "." (String a p ++ ".") k) in Hne;
      [|by apply rstrip_no_separator].
    by rewrite string_app_assoc in Hne.
Qed.

Lemma key_path_plain_facts (p k : string) :
  starts_with "." p = false -> plain_key k = true ->
  key_path p k <> "" /\ starts_with "." (key_path p k) = false /\
  forall q, below (key_path p k) q ->
            exists s, q = (if String.eqb p "" then "" else p ++ ".") ++ k ++ s /\
                      sep_start s = true.
Proof.
  intros Hp Hk. rewrite (key_path_plain p k Hp Hk).
  destruct (plain_key_inv k Hk) as (Hne & _ & Hdot & _).
  destruct p as [|a p]; simpl.
  - split; [done|]. split; [done|]. intros q (s & -> & Hs). eauto.
  - split; [done|]. split; [done|]. intros q (s & -> & Hs). exists s.
    split; [|done]. simpl. f_equal. by rewrite !string_app_assoc.
Qed.

(** A plain key ends where the first separator is. *)
Lemma plain_key_split (k k' s s' : string) :
  no_separator k = true -> no_separator k' = true ->
  sep_start s = true -> sep_start s' = true ->
  k ++ s = k' ++ s' -> k = k'.
Proof.
  revert k'. induction k as [|a k IH]; intros [|a' k'] Hk Hk' Hs Hs'; simpl;
    try done.
  - intros ->. simpl in Hs, Hk'.
    apply andb_prop in Hk' as [[Hd Hb]%andb_prop _].
    apply negb_true_iff in Hd, Hb. by rewrite Hd, Hb in Hs.
  - intros <-. simpl in Hs', Hk.
    apply andb_prop in Hk as [[Hd Hb]%andb_prop _].
    apply negb_true_iff in Hd, Hb. by rewrite Hd, Hb in Hs'.
  - intros [= -> Heq]. f_equal. simpl in Hk, Hk'.
    apply andb_prop in Hk as [_ Hk]. apply andb_prop in Hk' as [_ Hk'].
    by apply (IH k').
Qed.

(** Two plain keys whose paths lead to the same path are the same key. *)
Lemma below_key_path_inj (p k k' q : string) :
  starts_with "." p = false -> plain_key k = true -> plain_key k' = true ->
  below (key_path p k) q -> below (key_path p k') q -> k = k'.
Proof.
  intros Hp Hk Hk' Hq Hq'.
  destruct (key_path_plain_facts p k Hp Hk) as (_ & _ & Hform).
  destruct (key_path_plain_facts p k' Hp Hk') as (_ & _ & Hform').
  destruct (Hform q Hq) as (s & -> & Hs). destruct (Hform' _ Hq') as (s' & Heq & Hs').
  apply string_app_inv_head in Heq.
  destruct (plain_key_inv k Hk) as (_ & Hn & _).
  destruct (plain_key_inv k' Hk') as (_ & Hn' & _).
  eauto using plain_key_split.
Qed.

(** The digits of an index end where the closing bracket is. *)
Lemma string_of_uint_split (d d' : uint) (s s' : string) :
  NilEmpty.string_of_uint d ++ "]" ++ s = NilEmpty.string_of_uint d' ++ "]" ++ s' ->
  d = d'.
Proof.
  revert d'. induction d; intros d'; destruct d'; simpl; intros Heq;
    try discriminate; try reflexivity;
    injection Heq as Heq; f_equal; eauto.
Qed.

Lemma below_index_path_inj (p q : string) (i j : nat) :
  below (index_path p i) q -> below (index_path p j) q -> i = j.
Proof.
  unfold index_path. intros (s & -> & _) (s' & Heq & _).
  rewrite !string_app_assoc in Heq. apply string_app_inv_head in Heq.
  simpl in Heq. injection Heq as Heq.
  apply (string_of_uint_split _ _ s s') in Heq. by apply Unsigned.to_uint_inj.
Qed.

Lemma lstrip_id (c : ascii) (s : string) :
  starts_with c s = false -> lstrip c s = s.
Proof. destruct s as [|a s]; simpl; [done|]. by intros ->. Qed.

Lemma index_path_facts (p : string) (i : nat) :
  starts_with "." p = false ->
  index_path p i <> "" /\ starts_with "." (index_path p i) = false /\
  strip "." (index_path p i) = index_path p i.
Proof.
  intros Hp.
  assert (index_path p i <> "") as Hne by (unfold index_path; by destruct p).
  assert (starts_with "." (index_path p i) = false) as Hst.
  { unfold index_path. destruct p; [reflexivity | exact Hp]. }
  split; [done|]. split; [done|].
  unfold strip. rewrite (lstrip_id _ _ Hst). unfold index_path.
  rewrite <- (string_app_assoc "[" (str i) "]"), <- string_app_assoc.
  by apply rstrip_app.
Qed.

(** Under a path that is not empty, what is below a child is below the
    node. *)
Lemma below_trans_key (p k q : string) :
  p <> "" -> starts_with "." p = false -> plain_key k = true ->
  below (key_path p k) q -> below p q.
Proof.
  intros Hne Hp Hk Hq.
  destruct (key_path_plain_facts p k Hp Hk) as (_ & _ & Hform).
  destruct (Hform q Hq) as (s & -> & Hs).
  destruct p as [|a p]; [done|]. cbn [String.eqb].
  exists ("." ++ k ++ s). split; [by rewrite !string_app_assoc | done].
Qed.

Lemma below_trans_index (p q : string) (i : nat) :
  below (index_path p i) q -> below p q.
Proof.
  unfold index_path. intros (s & -> & Hs).
  exists ("[" ++ (str i ++ "]") ++ s). split; [by rewrite !string_app_assoc | done].
Qed.

Lemma below_refl (p : string) : below p p.
Proof. exists "". split; [by rewrite string_app_nil_r | done]. Qed.

(* ===================================================================== *)
(** ** Where the paths of a diff come from *)
(* ===================================================================== *)

Lemma reach_below (p q : string) :
  p <> "" -> starts_with "." p = false -> reach p q -> below p q.
Proof.
  intros Hne Hp [->|[(k & Hk & Hq)|(i & Hq)]].
  - apply below_refl.
  - by apply (below_trans_key p k).
  - by apply (below_trans_index p q i).
Qed.

Lemma part_dom_merge (x : part) (d sub : Differences) (q : string) :
  q ∈ part_dom x (merge d sub) <-> q ∈ part_dom x d \/ q ∈ part_dom x sub.
Proof.
  unfold merge, update. destruct x; simpl; rewrite dom_union, elem_of_union; tauto.
Qed.

Lemma part_dom_no_differences (x : part) (q : string) :
  q ∈ part_dom x no_differences -> False.
Proof. destruct x; simpl; rewrite dom_empty; apply not_elem_of_empty. Qed.

(** A loop that merges one sub-diff for each element: a path of the result
    was there at the start or is a path of one of the sub-diffs. *)
Lemma for_each_merge_dom {A : Type} (F : A -> result Differences)
    (body : Differences -> A -> result Differences)
    (l : list A) (d0 d : Differences) (x : part) (q : string) :
  for_each body l d0 = Ok d ->
  q ∈ part_dom x d ->
  (forall d e, body d e = (sub <- F e ;; Ok (merge d sub))) ->
  q ∈ part_dom x d0 \/ exists e sub, e ∈ l /\ F e = Ok sub /\ q ∈ part_dom x sub.
Proof.
  intros Hrun Hq Hbody. revert d0 Hrun Hq.
  induction l as [|e l IH]; intros d0; simpl.
  - intros [= ->]. by left.
  - rewrite Hbody. destruct (F e) as [sub|err] eqn:HF; [|discriminate]. cbn [bind].
    intros Hrun Hq. destruct (IH _ Hrun Hq) as [Hq'|(e' & sub' & He' & HF' & Hq')].
    + apply part_dom_merge in Hq' as [Hq'|Hq']; [by left|].
      right. exists e, sub. split; [left | done].
    + right. exists e', sub'. split; [by right | done].
Qed.

(** The loops over the indices past the end of the shorter list. *)
Lemma for_each_tail_added (a : list Value) (path : string) (l : list nat)
    (d0 d : Differences) (x : part) (q : string) :
  for_each (fun d i => v <- list_getitem a i ;;
                       Ok (set_added (strip "." (index_path path i)) v d)) l d0 = Ok d ->
  q ∈ part_dom x d ->
  q ∈ part_dom x d0 \/
  x = PAdded /\ exists i, i ∈ l /\ q = strip "." (index_path path i).
Proof.
  revert d0. induction l as [|i l IH]; intros d0; simpl.
  - intros [= ->]. by left.
  - destruct (list_getitem a i) as [v|]; [|discriminate]. cbn [bind].
    intros Hrun Hq. destruct (IH _ Hrun Hq) as [Hq'|(-> & j & Hj & ->)].
    + destruct x; simpl in Hq'; try by left.
      apply elem_of_dom in Hq'.
      destruct (decide (strip "." (index_path path i) = q)) as [<-|Hne].
      * right. split; [done|]. exists i. split; [left | done].
      * rewrite lookup_insert_ne in Hq' by done. left. by apply elem_of_dom.
    + right. split; [done|]. exists j. split; [by right | done].
Qed.

Lemma for_each_tail_removed (b : list Value) (path : string) (l : list nat)
    (d0 d : Differences) (x : part) (q : string) :
  for_each (fun d i => v <- list_getitem b i ;;
                       Ok (set_removed (strip "." (index_path path i)) v d)) l d0 = Ok d ->
  q ∈ part_dom x d ->
  q ∈ part_dom x d0 \/
  x = PRemoved /\ exists i, i ∈ l /\ q = strip "." (index_path path i).
Proof.
  revert d0. induction l as [|i l IH]; intros d0; simpl.
  - intros [= ->]. by left.
  - destruct (list_getitem b i) as [v|]; [|discriminate]. cbn [bind].
    intros Hrun Hq. destruct (IH _ Hrun Hq) as [Hq'|(-> & j & Hj & ->)].
    + destruct x; simpl in Hq'; try by left.
      apply elem_of_dom in Hq'.
      destruct (decide (strip "." (index_path path i) = q)) as [<-|Hne].
      * right. split; [done|]. exists i. split; [left | done].
      * rewrite lookup_insert_ne in Hq' by done. left. by apply elem_of_dom.
    + right. split; [done|]. exists j. split; [by right | done].
Qed.

Lemma enumerate_zip_lookup (s : nat) (b a : list Value) (i : nat) (x y : Value) :
  (i, (x, y)) ∈ enumerate_zip s b a ->
  (s <= i)%nat /\ nth_error b (i - s) = Some x /\ nth_error a (i - s) = Some y.
Proof.
  revert s a. induction b as [|u b IH]; intros s [|w a]; simpl;
    try (intros H; by apply not_elem_of_nil in H).
  rewrite elem_of_cons. intros [[= -> -> ->]|Hin].
  - rewrite Nat.sub_diag. split; [lia | done].
  - destruct (IH _ _ Hin) as (Hle & Hb & Ha).
    replace (i - s)%nat with (S (i - S s)) by lia. split; [lia | done].
Qed.

Lemma nth_error_in_range (l : list Value) (i : nat) (x : Value) :
  nth_error l i = Some x -> (i < length l)%nat.
Proof. intros Hi. apply nth_error_Some. congruence. Qed.

Lemma plain_keys_dict_get (items : list (string * Value)) (k : string) (v : Value) :
  plain_keys (VDict items) = true -> dict_get items k = Some v ->
  plain_key k = true /\ plain_keys v = true.
Proof.
  simpl. induction items as [|[k' v'] items IH]; simpl; [done|].
  intros [[Hk Hv]%andb_prop Hrest]%andb_prop.
  destruct (String.eqb_spec k' k) as [->|Hne]; [by intros [= <-] | auto].
Qed.

Lemma plain_keys_nth_error (l : list Value) (i : nat) (x : Value) :
  plain_keys (VList l) = true -> nth_error l i = Some x -> plain_keys x = true.
Proof.
  simpl. intros Hall Hi. apply nth_error_In in Hi.
  by apply (proj1 (forallb_forall _ _) Hall).
Qed.

Lemma plain_key_of_key_set (items : list (string * Value)) (k : string) :
  plain_keys (VDict items) = true -> k ∈ key_set items -> plain_key k = true.
Proof.
  intros Hplain [v Hv]%dict_get_key_set.
  by destruct (plain_keys_dict_get items k v Hplain Hv).
Qed.

Lemma part_dom_set_changed (x : part) (p q : string) (b a : Value) :
  q ∈ part_dom x (set_changed p b a no_differences) -> x = PChanged /\ q = p.
Proof.
  destruct x; simpl.
  - rewrite dom_empty. intros H. by apply not_elem_of_empty in H.
  - rewrite dom_empty. intros H. by apply not_elem_of_empty in H.
  - rewrite dom_insert, dom_empty, elem_of_union, elem_of_singleton.
    intros [->|H]; [done | by apply not_elem_of_empty in H].
Qed.

Section PathsOfDiff.
Context {order : SetOrder}.

(** With plain keys, every path of a diff made at [path] is reached from
    [path], and no path is in two of the three mappings. *)
Lemma find_differences_fuel_paths (fuel : nat) :
  forall (before after : Value) (path : string) (d : Differences),
    starts_with "." path = false ->
    plain_keys before = true -> plain_keys after = true ->
    find_differences_fuel fuel before after path = Ok d ->
    (forall x q, q ∈ part_dom x d -> reach path q) /\ one_mapping d.
Proof.
  induction fuel as [|fuel IH]; intros before after path d Hp Hb Ha Hrun;
    [discriminate|].
  destruct (is_dict before && is_dict after) eqn:Hd;
    [|destruct (is_list before && is_list after) eqn:Hl].
  - (* two dicts *)
    destruct before as [| | | | | |b| | |], after as [| | | | | |a| | |]; try discriminate.
    rewrite find_differences_fuel_dict in Hrun.
    set (F := fun key =>
                bv <- getitem b key ;; av <- getitem a key ;;
                find_differences_fuel fuel bv av (key_path path key)).
    assert (forall x q, q ∈ part_dom x d ->
              exists k, plain_key k = true /\ below (key_path path k) q /\
                (x = PAdded /\ k ∈ key_set a /\ k ∉ key_set b \/
                 x = PRemoved /\ k ∈ key_set b /\ k ∉ key_set a \/
                 k ∈ key_set b /\ k ∈ key_set a /\
                 exists sub, F k = Ok sub /\ q ∈ part_dom x sub /\ one_mapping sub))
      as Horigin.
    { intros x q Hq.
      destruct (for_each_merge_dom F _ _ _ _ x q Hrun Hq)
        as [H0|(k & sub & Hk & HF & Hsub)].
      { intros d' e. unfold F. destruct (getitem b e); [|done].
        by destruct (getitem a e). }
      - destruct x; simpl in H0.
        + apply insert_all_dom in H0 as [H0|(k & Hk & ->)];
            [rewrite dom_empty in H0; by apply not_elem_of_empty in H0|].
          apply set_iter_difference in Hk as [Hka Hkb].
          exists k. split; [by apply (plain_key_of_key_set a)|].
          split; [apply below_refl | by left].
        + apply insert_all_dom in H0 as [H0|(k & Hk & ->)];
            [rewrite dom_empty in H0; by apply not_elem_of_empty in H0|].
          apply set_iter_difference in Hk as [Hkb Hka].
          exists k. split; [by apply (plain_key_of_key_set b)|].
          split; [apply below_refl | right; by left].
        + rewrite dom_empty in H0. by apply not_elem_of_empty in H0.
      - apply set_iter_intersection in Hk as [Hkb Hka].
        pose proof HF as HF'. unfold F in HF.
        destruct (getitem_key_set b k Hkb) as (bv & Hgb & Hdb).
        destruct (getitem_key_set a k Hka) as (av & Hga & Hda).
        rewrite Hgb, Hga in HF. cbn [bind] in HF.
        destruct (plain_keys_dict_get b k bv Hb Hdb) as [Hpk Hpbv].
        destruct (plain_keys_dict_get a k av Ha Hda) as [_ Hpav].
        destruct (key_path_plain_facts path k Hp Hpk) as (Hne & Hst & _).
        destruct (IH bv av (key_path path k) sub Hst Hpbv Hpav HF) as [Hreach Hone].
        exists k. split; [done|]. split; [by apply reach_below, Hreach with x|].
        right; right. split; [done|]. split; [done|]. by exists sub. }
    split.
    + intros x q Hq. destruct (Horigin x q Hq) as (k & Hk & Hbelow & _).
      right; left. by exists k.
    + intros x y q Hx Hy.
      destruct (Horigin x q Hx) as (k & Hk & Hbk & Hox).
      destruct (Horigin y q Hy) as (k' & Hk' & Hbk' & Hoy).
      assert (k = k') as <- by by apply (below_key_path_inj path k k' q).
      destruct Hox as [(-> & ? & ?)|[(-> & ? & ?)|(? & ? & sub & HF & Hqs & Hone)]],
        Hoy as [(-> & ? & ?)|[(-> & ? & ?)|(? & ? & sub' & HF' & Hqs' & Hone')]];
        try done.
      rewrite HF in HF'. injection HF' as <-. by apply (Hone x y q).
  - (* two lists *)
    destruct before as [| | | | |b| | | |], after as [| | | | |a| | | |]; try discriminate.
    cbn [find_differences_fuel] in Hrun.
    apply bind_ok in Hrun as (d1 & Hzip & Htail).
    set (F := fun e : nat * (Value * Value) =>
                find_differences_fuel fuel (fst (snd e)) (snd (snd e))
                                      (index_path path (fst e))).
    assert (forall x q, q ∈ part_dom x d1 ->
              exists i, below (index_path path i) q /\
                exists u w sub,
                  nth_error b i = Some u /\ nth_error a i = Some w /\
                  find_differences_fuel fuel u w (index_path path i) = Ok sub /\
                  q ∈ part_dom x sub /\ one_mapping sub) as Hzipped.
    { intros x q Hq.
      destruct (for_each_merge_dom F _ _ _ _ x q Hzip Hq)
        as [H0|([i [u w]] & sub & Hin & HF & Hsub)].
      { by intros d' [i [u w]]. }
      - by apply part_dom_no_differences in H0.
      - apply enumerate_zip_lookup in Hin as (_ & Hu & Hw).
        rewrite Nat.sub_0_r in Hu, Hw. unfold F in HF. simpl in HF.
        destruct (index_path_facts path i Hp) as (Hne & Hst & _).
        destruct (IH u w (index_path path i) sub Hst) as [Hreach Hone];
          [by apply (plain_keys_nth_error b i) |
           by apply (plain_keys_nth_error a i) | done |].
        exists i. split; [by apply reach_below, Hreach with x|].
        by exists u, w, sub. }
    assert (forall x q, q ∈ part_dom x d ->
              exists i, below (index_path path i) q /\
                (x = PAdded /\ (length b <= i < length a)%nat \/
                 x = PRemoved /\ (length a <= i < length b)%nat \/
                 exists u w sub,
                   nth_error b i = Some u /\ nth_error a i = Some w /\
                   find_differences_fuel fuel u w (index_path path i) = Ok sub /\
                   q ∈ part_dom x sub /\ one_mapping sub)) as Horigin.
    { intros x q Hq.
      assert (forall i lo hi, i ∈ range lo hi -> (lo <= i < hi)%nat) as Hrange.
      { intros i lo hi Hi. unfold range in Hi.
        apply list_elem_of_In, in_seq in Hi. lia. }
      destruct (length b <? length a)%nat;
        [|destruct (length a <? length b)%nat].
      - destruct (for_each_tail_added _ _ _ _ _ x q Htail Hq)
          as [Hq1|(-> & i & Hi & ->)].
        + destruct (Hzipped x q Hq1) as (i & Hbelow & Hsub). eauto.
        + destruct (index_path_facts path i Hp) as (_ & _ & ->).
          exists i. split; [apply below_refl|]. left. split; [done|]. by apply Hrange.
      - destruct (for_each_tail_removed _ _ _ _ _ x q Htail Hq)
          as [Hq1|(-> & i & Hi & ->)].
        + destruct (Hzipped x q Hq1) as (i & Hbelow & Hsub). eauto.
        + destruct (index_path_facts path i Hp) as (_ & _ & ->).
          exists i. split; [apply below_refl|]. right; left.
          split; [done|]. by apply Hrange.
      - injection Htail as <-.
        destruct (Hzipped x q Hq) as (i & Hbelow & Hsub). eauto. }
    split.
    + intros x q Hq. destruct (Horigin x q Hq) as (i & Hbelow & _).
      right; right. by exists i.
    + intros x y q Hx Hy.
      destruct (Horigin x q Hx) as (i & Hbi & Hox).
      destruct (Horigin y q Hy) as (i' & Hbi' & Hoy).
      assert (i = i') as <- by by apply (below_index_path_inj path q).
      destruct Hox as [(-> & ?)|[(-> & ?)|(u & w & sub & Hu & Hw & HF & Hqs & Hone)]],
        Hoy as [(-> & ?)|[(-> & ?)|(u' & w' & sub' & Hu' & Hw' & HF' & Hqs' & Hone')]];
        try done; try lia;
        try (apply nth_error_in_range in Hu, Hw; lia);
        try (apply nth_error_in_range in Hu', Hw'; lia).
      rewrite Hu in Hu'. rewrite Hw in Hw'.
      injection Hu' as <-. injection Hw' as <-.
      rewrite HF in HF'. injection HF' as <-. by apply (Hone x y q).
  - (* one comparison *)
    rewrite find_differences_fuel_other in Hrun by done. injection Hrun as <-.
    destruct (py_ne before after).
    + split.
      * intros x q [_ ->]%part_dom_set_changed. by left.
      * intros x y q [-> _]%part_dom_set_changed [-> _]%part_dom_set_changed. done.
    + split.
      * intros x q Hq. by apply part_dom_no_differences in Hq.
      * intros x y q Hq. by apply part_dom_no_differences in Hq.
Qed.

End PathsOfDiff.

(** C4, as the specification has it, fails: between [dotted_before] and
    [dotted_after] the key ["a.b"] of the root is added and the key ["b"]
    under ["a"] is removed, and both are recorded at the path ["a.b"], which
    is then a key of [added] and a key of [removed]. *)
Lemma C4_dotted_key_in_two_mappings :
  exists d,
    find_differences (order := elements_order) dotted_before dotted_after "" = Ok d /\
    added d !! "a.b" = Some (VInt 5) /\
    removed d !! "a.b" = Some (VInt 1) /\
    ~ one_mapping d.
Proof.
  eexists. split; [vm_compute; reflexivity|].
  split; [vm_compute; reflexivity|]. split; [vm_compute; reflexivity|].
  intros Hone. specialize (Hone PAdded PRemoved "a.b").
  assert (PAdded = PRemoved) as Heq; [|discriminate Heq].
  apply Hone; apply elem_of_dom; eexists; vm_compute; reflexivity.
Qed.

(** C4, amended: when every key of every mapping of the two values is plain,
    that is, not empty and free of ['.'] and ['['], the diff at the root
    path returns a difference set in which each path is a key of at most one
    of [added], [removed] and [changed]. *)
Theorem C4_one_mapping_per_path `{SetOrder} (before after : Value) :
  plain_keys before = true ->
  plain_keys after = true ->
  exists d,
    find_differences before after "" = Ok d /\
    forall q,
      ~ (q ∈ dom (added d) /\ q ∈ dom (removed d)) /\
      ~ (q ∈ dom (added d) /\ q ∈ dom (changed d)) /\
      ~ (q ∈ dom (removed d) /\ q ∈ dom (changed d)).
Proof.
  intros Hb Ha. destruct (find_differences_ok before after "") as [d Hd].
  exists d. split; [done|].
  destruct (find_differences_fuel_paths _ before after "" d eq_refl Hb Ha Hd)
    as [_ Hone].
  intros q. repeat split; intros [Hx Hy].
  - by specialize (Hone PAdded PRemoved q Hx Hy).
  - by specialize (Hone PAdded PChanged q Hx Hy).
  - by specialize (Hone PRemoved PChanged q Hx Hy).
Qed.

Lemma C4_one_mapping_per_path_witness :
  plain_keys plain_before = true /\
  plain_keys plain_after = true /\
  exists d,
    find_differences (order := elements_order) plain_before plain_after "" = Ok d /\
    forall q,
      ~ (q ∈ dom (added d) /\ q ∈ dom (removed d)) /\
      ~ (q ∈ dom (added d) /\ q ∈ dom (changed d)) /\
      ~ (q ∈ dom (removed d) /\ q ∈ dom (changed d)).
Proof.
  split; [reflexivity|]. split; [reflexivity|].
  apply (@C4_one_mapping_per_path elements_order plain_before plain_after);
    reflexivity.
Defined.

(* ===================================================================== *)
(** ** More on the classifier *)
(* ===================================================================== *)

Lemma classify_bucket_list (k : bucket) (action : list string) (r : resource)
    (st : acc) :
  bucket_list k (fst (classify action r st)) =
  (bucket_list k (fst st) ++ (if bucket_test k action then [r] else []))%list.
Proof.
  destruct st as [cd s]. unfold classify, bucket_test.
  destruct (contains "create" _), (contains "update" _), (contains "delete" _),
    (contains "replace" _), (contains "no-op" _), k;
    cbn; rewrite ?app_nil_r; reflexivity.
Qed.

Lemma classify_counter_value (k : counter) (action : list string) (r : resource)
    (st : acc) :
  counter_value k (snd (classify action r st)) =
  (counter_value k (snd st) + (if contains (counter_token k) action then 1 else 0))%nat.
Proof.
  destruct st as [cd s]. unfold classify.
  destruct k; cbn [counter_token];
    destruct (contains "create" _), (contains "update" _), (contains "delete" _),
      (contains "replace" _), (contains "no-op" _); cbn; lia.
Qed.

Lemma bucket_test_nil (k : bucket) : bucket_test k [] = false.
Proof. destruct k; reflexivity. Qed.

Section ClassifierRuns.
Context {order : SetOrder}.

(** The loop of [analyse_plan] from any state: it ends normally; each list
    has grown by the records of the entries that pass its test, in the
    order of the entries; each counter has grown by the number of entries
    whose actions hold its token. *)
Lemma for_each_analyse_change (changes : list change) :
  forall st0 : acc,
    exists st,
      for_each analyse_change changes st0 = Ok st /\
      (forall k, exists rs,
          bucket_list k (fst st) = (bucket_list k (fst st0) ++ rs)%list /\
          Forall2 (fun c r => change_details c (actions_of c) = Ok r)
                  (List.filter (fun c => bucket_test k (actions_of c)) changes) rs) /\
      (forall k,
          counter_value k (snd st) =
          (counter_value k (snd st0) +
           length (List.filter (fun c => contains (counter_token k) (actions_of c))
                               changes))%nat).
Proof.
  induction changes as [|c changes IH]; intros st0.
  - exists st0. split; [done|]. split.
    + intros k. exists []. by rewrite app_nil_r.
    + intros k. simpl. lia.
  - simpl. destruct (analyse_change_ok st0 c) as (st1 & -> & Hst1). cbn [bind].
    destruct (IH st1) as (st & Hrun & Hlists & Hcounts).
    exists st. split; [done|].
    destruct Hst1 as [[Hnil ->]|(r & Hr & ->)].
    + rewrite Hnil. split.
      * intros k. rewrite bucket_test_nil. apply Hlists.
      * intros k. rewrite contains_nil. apply Hcounts.
    + split.
      * intros k. destruct (Hlists k) as (rs & Heq & Hall).
        rewrite classify_bucket_list in Heq.
        destruct (bucket_test k (actions_of c)).
        -- exists (r :: rs). rewrite Heq, <- app_assoc. split; [done|].
           by constructor.
        -- exists rs. by rewrite Heq, app_nil_r.
      * intros k. rewrite Hcounts, classify_counter_value.
        destruct (contains (counter_token k) (actions_of c)); simpl; lia.
Qed.

End ClassifierRuns.

(** X1: [analyse_plan] never raises; it returns [None] exactly when the
    section is missing from the plan or is the empty list, and a pair of
    lists and counters otherwise. *)
Theorem X1_analyse_plan_none_iff_no_changes `{SetOrder}
    (plan : gmap string (list change)) (type_of_change : string) :
  (exists o, analyse_plan plan type_of_change = Ok o) /\
  (analyse_plan plan type_of_change = Ok None <->
   plan !! type_of_change = None \/ plan !! type_of_change = Some []).
Proof.
  unfold analyse_plan. destruct (plan !! type_of_change) as [[|c changes]|]; simpl default.
  - split; [eauto|]. split; [by right | done].
  - destruct (for_each_analyse_change (c :: changes) (changes_dict0, summary0))
      as (st & -> & _).
    split; [cbn [bind]; eauto|]. cbn [bind]. split; [discriminate|].
    intros [?|?]; discriminate.
  - split; [eauto|]. split; [by left | done].
Qed.

(** X2: in what [analyse_plan] returns for a section that is not empty,
    each of the six lists holds the normalized records of the entries that
    pass the test of the list, one for one and in the order of the
    entries. *)
Theorem X2_lists_are_ordered_selections `{SetOrder}
    (plan : gmap string (list change)) (type_of_change : string)
    (changes : list change) :
  plan !! type_of_change = Some changes ->
  changes <> [] ->
  exists cd s,
    analyse_plan plan type_of_change = Ok (Some (cd, s)) /\
    forall k,
      Forall2 (fun c r => change_details c (actions_of c) = Ok r)
              (List.filter (fun c => bucket_test k (actions_of c)) changes)
              (bucket_list k cd).
Proof.
  intros Hplan Hne. unfold analyse_plan. rewrite Hplan. simpl default.
  destruct (for_each_analyse_change changes (changes_dict0, summary0))
    as ([cd s] & -> & Hlists & _).
  exists cd, s. split; [by destruct changes|].
  intros k. destruct (Hlists k) as (rs & Heq & Hall).
  simpl in Heq. replace (bucket_list k cd) with rs; [done|].
  rewrite Heq. by destruct k.
Qed.

Lemma X2_lists_are_ordered_selections_witness :
  mixed_plan !! "resource_changes" = Some mixed_changes /\
  mixed_changes <> [] /\
  exists cd s,
    analyse_plan (order := elements_order) mixed_plan "resource_changes"
      = Ok (Some (cd, s)) /\
    forall k,
      Forall2 (fun c r => change_details (order := elements_order) c (actions_of c) = Ok r)
              (List.filter (fun c => bucket_test k (actions_of c)) mixed_changes)
              (bucket_list k cd).
Proof.
  split; [reflexivity|]. split; [discriminate|].
  apply (@X2_lists_are_ordered_selections elements_order mixed_plan
           "resource_changes" mixed_changes); [reflexivity | discriminate].
Defined.

(** X3: in what [analyse_plan] returns for a section that is not empty,
    each of the five counters is the number of entries whose list of
    actions holds the token of the counter. *)
Theorem X3_counters_count_entries `{SetOrder}
    (plan : gmap string (list change)) (type_of_change : string)
    (changes : list change) :
  plan !! type_of_change = Some changes ->
  changes <> [] ->
  exists cd s,
    analyse_plan plan type_of_change = Ok (Some (cd, s)) /\
    forall k,
      counter_value k s =
      length (List.filter (fun c => contains (counter_token k) (actions_of c)) changes).
Proof.
  intros Hplan Hne. unfold analyse_plan. rewrite Hplan. simpl default.
  destruct (for_each_analyse_change changes (changes_dict0, summary0))
    as ([cd s] & -> & _ & Hcounts).
  exists cd, s. split; [by destruct changes|].
  intros k. specialize (Hcounts k). simpl in Hcounts. rewrite Hcounts. by destruct k.
Qed.

Lemma X3_counters_count_entries_witness :
  mixed_plan !! "resource_changes" = Some mixed_changes /\
  mixed_changes <> [] /\
  exists cd s,
    analyse_plan (order := elements_order) mixed_plan "resource_changes"
      = Ok (Some (cd, s)) /\
    forall k,
      counter_value k s =
      length (List.filter (fun c => contains (counter_token k) (actions_of c))
                          mixed_changes).
Proof.
  split; [reflexivity|]. split; [discriminate|].
  apply (@X3_counters_count_entries elements_order mixed_plan
           "resource_changes" mixed_changes); [reflexivity | discriminate].
Defined.

Lemma analyse_change_no_token `{SetOrder} (st : acc) (c : change) :
  (forall k, contains (counter_token k) (actions_of c) = false) ->
  analyse_change st c = Ok st.
Proof.
  intros Hno. unfold analyse_change.
  rewrite (Hno CCreate : contains "create" _ = false),
    (Hno CUpdate : contains "update" _ = false),
    (Hno CDelete : contains "delete" _ = false),
    (Hno CReplace : contains "replace" _ = false),
    (Hno CNoOp : contains "no-op" _ = false).
  reflexivity.
Qed.

(** X4: entries whose actions hold none of the five tokens are dropped
    without an error: a section made of such entries only, and not empty,
    yields six empty lists and five counters at 0, which is not the [None]
    of an empty section. *)
Theorem X4_unknown_actions_are_dropped `{SetOrder}
    (plan : gmap string (list change)) (type_of_change : string)
    (changes : list change) :
  plan !! type_of_change = Some changes ->
  changes <> [] ->
  (forall c k, c ∈ changes -> contains (counter_token k) (actions_of c) = false) ->
  analyse_plan plan type_of_change = Ok (Some (changes_dict0, summary0)).
Proof.
  intros Hplan Hne Hno. unfold analyse_plan. rewrite Hplan. simpl default.
  assert (forall st, for_each analyse_change changes st = Ok st) as Hrun.
  { clear Hplan Hne. induction changes as [|c changes IH]; intros st; [done|].
    simpl. rewrite analyse_change_no_token by (intros k; apply Hno; left).
    cbn [bind]. apply IH. intros c' k Hc'. apply Hno. by right. }
  rewrite Hrun. by destruct changes.
Qed.

Lemma X4_unknown_actions_are_dropped_witness :
  read_plan !! "resource_changes" = Some [read_change] /\
  [read_change] <> [] /\
  (forall c k, c ∈ [read_change] ->
               contains (counter_token k) (actions_of c) = false) /\
  analyse_plan (order := elements_order) read_plan "resource_changes"
    = Ok (Some (changes_dict0, summary0)).
Proof.
  assert (forall c k, c ∈ [read_change] ->
                      contains (counter_token k) (actions_of c) = false) as Hno.
  { intros c k ->%list_elem_of_singleton. by destruct k. }
  split; [reflexivity|]. split; [discriminate|]. split; [exact Hno|].
  apply (@X4_unknown_actions_are_dropped elements_order read_plan
           "resource_changes" [read_change]); [reflexivity | discriminate | exact Hno].
Defined.

(** X5: [change_details] raises [IndexError] on an empty list of actions and
    on no other; on any other list it returns a record whose name and type
    are those of the entry, [None] when missing, whose actions are those of
    the entry and not the list it was given, and whose dependencies are
    those of the entry, [{}] when missing. *)
Theorem X5_change_details_fields `{SetOrder} (c : change) :
  change_details c [] = Raise IndexError /\
  forall first rest,
    exists r,
      change_details c (first :: rest) = Ok r /\
      r_name r = default VNone (ch_name c) /\
      r_type r = default VNone (ch_type c) /\
      r_actions r = actions_of c /\
      r_dependencies r =
        default (VDict []) (cb_dependencies (default empty_body (ch_change c))).
Proof.
  split; [reflexivity|]. intros first rest. unfold change_details.
  destruct (contains first control_actions); [|eexists; split; [reflexivity|done]].
  destruct (get_the_differences_ok
              (default (VDict []) (cb_before (default empty_body (ch_change c))))
              (default (VDict []) (cb_after (default empty_body (ch_change c)))))
    as [o ->].
  cbn [bind]. eexists. split; [reflexivity|done].
Qed.

Lemma truthy_dict_or_empty (items : list (string * Value)) :
  (if truthy (VDict items) then VDict items else VDict []) = VDict items.
Proof. by destruct items. Qed.

(** X6: for a control entry whose ["before"] key holds [null] and whose
    after state is a mapping, which is how a plan records a creation, the
    diff is taken on [null] itself: the differences field is a difference
    set with no entry in [added] and one entry in [changed], at the root
    path, from [null] to the whole after state; the before of the record is
    [{}].  The same holds, sides exchanged, when ["after"] holds [null]. *)
Theorem X6_null_state_is_one_change `{SetOrder} (c : change) (action : list string)
    (items : list (string * Value)) :
  is_control action = true ->
  (cb_before (default empty_body (ch_change c)) = Some VNone ->
   cb_after (default empty_body (ch_change c)) = Some (VDict items) ->
   exists r,
     change_details c action = Ok r /\
     r_before r = VDict [] /\ r_after r = VDict items /\
     r_differences r =
       DiffSet (mkDifferences ∅ ∅ {[ "" := (VNone, VDict items) ]})) /\
  (cb_before (default empty_body (ch_change c)) = Some (VDict items) ->
   cb_after (default empty_body (ch_change c)) = Some VNone ->
   exists r,
     change_details c action = Ok r /\
     r_before r = VDict items /\ r_after r = VDict [] /\
     r_differences r =
       DiffSet (mkDifferences ∅ ∅ {[ "" := (VDict items, VNone) ]})).
Proof.
  destruct action as [|first rest]; [discriminate|]. simpl. intros Hctl.
  split; intros Hb Ha; unfold change_details, get_the_differences, find_differences;
    rewrite Hctl, Hb, Ha; simpl default.
  - rewrite find_differences_fuel_other by done.
    cbn [bind py_ne py_eq negb added removed changed set_changed no_differences].
    rewrite (nonempty_true (<[ "" := (VNone, VDict items) ]> ∅) "")
      by (rewrite lookup_insert_eq; eauto).
    rewrite !orb_true_r. cbn [bind]. eexists. split; [reflexivity|].
    cbn [r_before r_after r_differences]. rewrite truthy_dict_or_empty.
    repeat split; reflexivity.
  - rewrite Nat.min_comm. rewrite find_differences_fuel_other by done.
    cbn [bind py_ne py_eq negb added removed changed set_changed no_differences].
    rewrite (nonempty_true (<[ "" := (VDict items, VNone) ]> ∅) "")
      by (rewrite lookup_insert_eq; eauto).
    rewrite !orb_true_r. cbn [bind]. eexists. split; [reflexivity|].
    cbn [r_before r_after r_differences]. rewrite truthy_dict_or_empty.
    repeat split; reflexivity.
Qed.

Lemma X6_null_state_is_one_change_witness :
  (is_control ["create"] = true /\
   cb_before (default empty_body (ch_change null_before_change)) = Some VNone /\
   cb_after (default empty_body (ch_change null_before_change))
     = Some (VDict new_entity_items) /\
   exists r,
     change_details (order := elements_order) null_before_change ["create"] = Ok r /\
     r_before r = VDict [] /\ r_after r = VDict new_entity_items /\
     r_differences r =
       DiffSet (mkDifferences ∅ ∅ {[ "" := (VNone, VDict new_entity_items) ]})) /\
  (is_control ["delete"] = true /\
   cb_before (default empty_body (ch_change null_after_change))
     = Some (VDict new_entity_items) /\
   cb_after (default empty_body (ch_change null_after_change)) = Some VNone /\
   exists r,
     change_details (order := elements_order) null_after_change ["delete"] = Ok r /\
     r_before r = VDict new_entity_items /\ r_after r = VDict [] /\
     r_differences r =
       DiffSet (mkDifferences ∅ ∅ {[ "" := (VDict new_entity_items, VNone) ]})).
Proof.
  split; (split; [reflexivity|]); (split; [reflexivity|]); (split; [reflexivity|]).
  - apply (proj1 (@X6_null_state_is_one_change elements_order null_before_change
                    ["create"] new_entity_items eq_refl)); reflexivity.
  - apply (proj2 (@X6_null_state_is_one_change elements_order null_after_change
                    ["delete"] new_entity_items eq_refl)); reflexivity.
Defined.


(* ===================================================================== *)
(** ** What the entries of a diff hold *)
(* ===================================================================== *)

Lemma update_lookup {V : Type} (m1 m2 : gmap string V) (q : string) (v : V) :
  update m1 m2 !! q = Some v -> m2 !! q = Some v \/ m1 !! q = Some v.
Proof.
  unfold update. rewrite lookup_union_Some_raw. intros [?|[_ ?]]; auto.
Qed.

(** A loop that merges one sub-diff for each element: an entry of one of
    the mappings of the result was there at the start or is an entry of one
    of the sub-diffs. *)
Lemma for_each_merge_lookup {A V : Type} (proj : Differences -> gmap string V)
    (F : A -> result Differences)
    (body : Differences -> A -> result Differences)
    (l : list A) (d0 d : Differences) (q : string) (v : V) :
  (forall d sub, proj (merge d sub) = update (proj d) (proj sub)) ->
  for_each body l d0 = Ok d ->
  proj d !! q = Some v ->
  (forall d e, body d e = (sub <- F e ;; Ok (merge d sub))) ->
  proj d0 !! q = Some v \/
  exists e sub, e ∈ l /\ F e = Ok sub /\ proj sub !! q = Some v.
Proof.
  intros Hproj Hrun Hq Hbody. revert d0 Hrun Hq.
  induction l as [|e l IH]; intros d0; simpl.
  - intros [= ->]. by left.
  - rewrite Hbody. destruct (F e) as [sub|err] eqn:HF; [|discriminate]. cbn [bind].
    intros Hrun Hq. destruct (IH _ Hrun Hq) as [Hq'|(e' & sub' & He' & HF' & Hq')].
    + rewrite Hproj in Hq'. apply update_lookup in Hq' as [Hq'|Hq']; [|by left].
      right. exists e, sub. split; [left | done].
    + right. exists e', sub'. split; [by right | done].
Qed.

Lemma for_each_tail_added_lookup (a : list Value) (path : string) (l : list nat)
    (d0 d : Differences) :
  for_each (fun d i => v <- list_getitem a i ;;
                       Ok (set_added (strip "." (index_path path i)) v d)) l d0 = Ok d ->
  removed d = removed d0 /\ changed d = changed d0 /\
  forall q v, added d !! q = Some v ->
              added d0 !! q = Some v \/
              exists i, i ∈ l /\ nth_error a i = Some v /\
                        q = strip "." (index_path path i).
Proof.
  revert d0. induction l as [|i l IH]; intros d0; simpl.
  - intros [= ->]. repeat split. by left.
  - unfold list_getitem at 1. destruct (nth_error a i) as [w|] eqn:Hi; [|discriminate].
    cbn [bind]. intros Hrun. destruct (IH _ Hrun) as (Hr & Hc & Ha).
    repeat split; [done | done |]. intros q v Hq.
    destruct (Ha q v Hq) as [Hq'|(j & Hj & Hv & ->)].
    + simpl in Hq'.
      destruct (decide (strip "." (index_path path i) = q)) as [<-|Hne].
      * rewrite lookup_insert_eq in Hq'. injection Hq' as <-.
        right. exists i. split; [left | done].
      * rewrite lookup_insert_ne in Hq' by done. by left.
    + right. exists j. split; [by right | done].
Qed.

Lemma for_each_tail_removed_lookup (b : list Value) (path : string) (l : list nat)
    (d0 d : Differences) :
  for_each (fun d i => v <- list_getitem b i ;;
                       Ok (set_removed (strip "." (index_path path i)) v d)) l d0 = Ok d ->
  added d = added d0 /\ changed d = changed d0 /\
  forall q v, removed d !! q = Some v ->
              removed d0 !! q = Some v \/
              exists i, i ∈ l /\ nth_error b i = Some v /\
                        q = strip "." (index_path path i).
Proof.
  revert d0. induction l as [|i l IH]; intros d0; simpl.
  - intros [= ->]. repeat split. by left.
  - unfold list_getitem at 1. destruct (nth_error b i) as [w|] eqn:Hi; [|discriminate].
    cbn [bind]. intros Hrun. destruct (IH _ Hrun) as (Ha & Hc & Hr).
    repeat split; [done | done |]. intros q v Hq.
    destruct (Hr q v Hq) as [Hq'|(j & Hj & Hv & ->)].
    + simpl in Hq'.
      destruct (decide (strip "." (index_path path i) = q)) as [<-|Hne].
      * rewrite lookup_insert_eq in Hq'. injection Hq' as <-.
        right. exists i. split; [left | done].
      * rewrite lookup_insert_ne in Hq' by done. by left.
    + right. exists j. split; [by right | done].
Qed.

Section DiffEntries.
Context {order : SetOrder}.

(** What a diff holds: the values of [added] lie in the after state, those
    of [removed] in the before state, and an entry of [changed] is a pair of
    a value of the before state and a value of the after state that are not
    two mappings, not two sequences, and that [!=] tells apart. *)
Lemma find_differences_fuel_entries (fuel : nat) :
  forall (before after : Value) (path : string) (d : Differences),
    find_differences_fuel fuel before after path = Ok d ->
    (forall q v, added d !! q = Some v -> occurs_in v after) /\
    (forall q v, removed d !! q = Some v -> occurs_in v before) /\
    (forall q x y, changed d !! q = Some (x, y) ->
       occurs_in x before /\ occurs_in y after /\ py_ne x y = true /\
       is_dict x && is_dict y = false /\ is_list x && is_list y = false).
Proof.
  induction fuel as [|fuel IH]; intros before after path d Hrun; [discriminate|].
  destruct (is_dict before && is_dict after) eqn:Hd;
    [|destruct (is_list before && is_list after) eqn:Hl].
  - (* two dicts *)
    destruct before as [| | | | | |b| | |], after as [| | | | | |a| | |]; try discriminate.
    rewrite find_differences_fuel_dict in Hrun.
    set (F := fun key =>
                bv <- getitem b key ;; av <- getitem a key ;;
                find_differences_fuel fuel bv av (key_path path key)).
    assert (forall d' e,
              (bv <- getitem b e ;; av <- getitem a e ;;
               sub_diff <- find_differences_fuel fuel bv av (key_path path e) ;;
               Ok (merge d' sub_diff)) = (sub <- F e ;; Ok (merge d' sub))) as Hbody.
    { intros d' e. unfold F. destruct (getitem b e); [|done]. by destruct (getitem a e). }
    assert (forall k sub, F k = Ok sub ->
              exists bv av, dict_get b k = Some bv /\ dict_get a k = Some av /\
                find_differences_fuel fuel bv av (key_path path k) = Ok sub) as HF.
    { intros k sub. unfold F, getitem.
      destruct (dict_get b k) as [bv|]; [|discriminate].
      destruct (dict_get a k) as [av|]; [|discriminate]. cbn [bind]. eauto. }
    split; [|split].
    + intros q v Hq.
      destruct (for_each_merge_lookup added F _ _ _ _ q v (fun _ _ => eq_refl) Hrun Hq Hbody)
        as [H0|(k & sub & _ & Hsub & Hv)].
      * apply insert_all_lookup in H0 as [H0|(k & _ & _ & Hk)];
          [by rewrite lookup_empty in H0 | |].
        -- apply (occurs_in_dict _ _ k v Hk), occurs_here.
        -- by intros k [? _]%set_iter_difference.
      * destruct (HF k sub Hsub) as (bv & av & Hbv & Hav & Hrec).
        destruct (IH _ _ _ _ Hrec) as (Ha & _ & _).
        apply (occurs_in_dict _ _ k av Hav). eauto.
    + intros q v Hq.
      destruct (for_each_merge_lookup removed F _ _ _ _ q v (fun _ _ => eq_refl) Hrun Hq Hbody)
        as [H0|(k & sub & _ & Hsub & Hv)].
      * apply insert_all_lookup in H0 as [H0|(k & _ & _ & Hk)];
          [by rewrite lookup_empty in H0 | |].
        -- apply (occurs_in_dict _ _ k v Hk), occurs_here.
        -- by intros k [? _]%set_iter_difference.
      * destruct (HF k sub Hsub) as (bv & av & Hbv & Hav & Hrec).
        destruct (IH _ _ _ _ Hrec) as (_ & Hr & _).
        apply (occurs_in_dict _ _ k bv Hbv). eauto.
    + intros q x y Hq.
      destruct (for_each_merge_lookup changed F _ _ _ _ q (x, y) (fun _ _ => eq_refl)
                  Hrun Hq Hbody) as [H0|(k & sub & _ & Hsub & Hv)];
        [simpl in H0; by rewrite lookup_empty in H0|].
      destruct (HF k sub Hsub) as (bv & av & Hbv & Hav & Hrec).
      destruct (IH _ _ _ _ Hrec) as (_ & _ & Hc).
      destruct (Hc q x y Hv) as (Hx & Hy & Hne & Hdd & Hll).
      split; [by apply (occurs_in_dict _ _ k bv)|].
      split; [by apply (occurs_in_dict _ _ k av)|]. done.
  - (* two lists *)
    destruct before as [| | | | |b| | | |], after as [| | | | |a| | | |]; try discriminate.
    cbn [find_differences_fuel] in Hrun.
    apply bind_ok in Hrun as (d1 & Hzip & Htail).
    set (F := fun e : nat * (Value * Value) =>
                find_differences_fuel fuel (fst (snd e)) (snd (snd e))
                                      (index_path path (fst e))).
    assert (forall d' (e : nat * (Value * Value)),
              (let '(i, (b_item, a_item)) := e in
               sub_diff <- find_differences_fuel fuel b_item a_item (index_path path i) ;;
               Ok (merge d' sub_diff)) = (sub <- F e ;; Ok (merge d' sub))) as Hbody.
    { by intros d' [i [u w]]. }
    assert (forall (e : nat * (Value * Value)), e ∈ enumerate_zip 0 b a ->
              In (fst (snd e)) b /\ In (snd (snd e)) a) as Hin.
    { intros [i [u w]] (_ & Hu & Hw)%enumerate_zip_lookup.
      split; eapply nth_error_In; eauto. }
    assert (forall q v, added d1 !! q = Some v -> occurs_in v (VList a)) as Ha1.
    { intros q v Hq.
      destruct (for_each_merge_lookup added F _ _ _ _ q v (fun _ _ => eq_refl)
                  Hzip Hq Hbody) as [H0|(e & sub & He & Hsub & Hv)];
        [simpl in H0; by rewrite lookup_empty in H0|].
      destruct (IH _ _ _ _ Hsub) as (Ha & _ & _). destruct (Hin e He) as [_ Hy].
      eapply occurs_in_list; eauto. }
    assert (forall q v, removed d1 !! q = Some v -> occurs_in v (VList b)) as Hr1.
    { intros q v Hq.
      destruct (for_each_merge_lookup removed F _ _ _ _ q v (fun _ _ => eq_refl)
                  Hzip Hq Hbody) as [H0|(e & sub & He & Hsub & Hv)];
        [simpl in H0; by rewrite lookup_empty in H0|].
      destruct (IH _ _ _ _ Hsub) as (_ & Hr & _). destruct (Hin e He) as [Hx _].
      eapply occurs_in_list; eauto. }
    assert (forall q x y, changed d1 !! q = Some (x, y) ->
              occurs_in x (VList b) /\ occurs_in y (VList a) /\ py_ne x y = true /\
              is_dict x && is_dict y = false /\ is_list x && is_list y = false) as Hc1.
    { intros q x y Hq.
      destruct (for_each_merge_lookup changed F _ _ _ _ q (x, y) (fun _ _ => eq_refl)
                  Hzip Hq Hbody) as [H0|(e & sub & He & Hsub & Hv)];
        [simpl in H0; by rewrite lookup_empty in H0|].
      destruct (IH _ _ _ _ Hsub) as (_ & _ & Hc). destruct (Hin e He) as [Hx Hy].
      destruct (Hc q x y Hv) as (Ox & Oy & Hne & Hdd & Hll).
      split; [eapply occurs_in_list; eauto|].
      split; [eapply occurs_in_list; eauto|]. done. }
    destruct (length b <? length a)%nat; [|destruct (length a <? length b)%nat].
    + apply for_each_tail_added_lookup in Htail as (Hr & Hc & Ha).
      rewrite Hr, Hc. split; [|by split].
      intros q v Hq. destruct (Ha q v Hq) as [Hq'|(i & _ & Hi & _)]; [eauto|].
      apply nth_error_In in Hi. eapply occurs_in_list; [done | apply occurs_here].
    + apply for_each_tail_removed_lookup in Htail as (Ha & Hc & Hr).
      rewrite Ha, Hc. split; [done|]. split; [|done].
      intros q v Hq. destruct (Hr q v Hq) as [Hq'|(i & _ & Hi & _)]; [eauto|].
      apply nth_error_In in Hi. eapply occurs_in_list; [done | apply occurs_here].
    + injection Htail as <-. split; [done|]. by split.
  - (* one comparison *)
    rewrite find_differences_fuel_other in Hrun by done. injection Hrun as <-.
    destruct (py_ne before after) eqn:Hne.
    + split; [intros q v Hq; simpl in Hq; by rewrite lookup_empty in Hq|].
      split; [intros q v Hq; simpl in Hq; by rewrite lookup_empty in Hq|].
      intros q x y Hq. simpl in Hq.
      apply lookup_insert_Some in Hq as [[_ Heq]|[_ Hq]];
        [|by rewrite lookup_empty in Hq].
      injection Heq as <- <-.
      split; [apply occurs_here|]. split; [apply occurs_here|]. done.
    + split; [intros q v Hq; simpl in Hq; by rewrite lookup_empty in Hq|].
      split; [intros q v Hq; simpl in Hq; by rewrite lookup_empty in Hq|].
      intros q x y Hq. simpl in Hq. by rewrite lookup_empty in Hq.
Qed.

End DiffEntries.

(** X7: a diff returns, and what it holds comes from the two states: every
    value of [added] lies in the after state, every value of [removed] in
    the before state, and every entry of [changed] pairs a value of the
    before state with a value of the after state. *)
Theorem X7_values_come_from_the_states `{SetOrder} (before after : Value)
    (path : string) :
  exists d,
    find_differences before after path = Ok d /\
    (forall q v, added d !! q = Some v -> occurs_in v after) /\
    (forall q v, removed d !! q = Some v -> occurs_in v before) /\
    (forall q x y, changed d !! q = Some (x, y) ->
                   occurs_in x before /\ occurs_in y after).
Proof.
  destruct (find_differences_ok before after path) as [d Hd]. exists d.
  destruct (find_differences_fuel_entries _ _ _ _ _ Hd) as (Ha & Hr & Hc).
  split; [done|]. split; [done|]. split; [done|].
  intros q x y Hq. destruct (Hc q x y Hq) as (? & ? & _). by split.
Qed.

(** X8: every entry of [changed] records a real change: its two values are
    not two mappings and not two sequences, which are descended into and
    never recorded whole, and [!=] tells them apart. *)
Theorem X8_changed_entries_differ `{SetOrder} (before after : Value)
    (path : string) :
  exists d,
    find_differences before after path = Ok d /\
    forall q x y, changed d !! q = Some (x, y) ->
                  py_ne x y = true /\
                  is_dict x && is_dict y = false /\
                  is_list x && is_list y = false.
Proof.
  destruct (find_differences_ok before after path) as [d Hd]. exists d.
  destruct (find_differences_fuel_entries _ _ _ _ _ Hd) as (_ & _ & Hc).
  split; [done|]. intros q x y Hq. by destruct (Hc q x y Hq) as (_ & _ & ?).
Qed.




(* ===================================================================== *)
(** ** A sequence that grows at its end *)
(* ===================================================================== *)

Lemma enumerate_zip_app_r (i : nat) (l t : list Value) :
  enumerate_zip i l (l ++ t)%list = enumerate_zip i l l.
Proof.
  revert i. induction l as [|x l IH]; intros i; simpl; [done|]. by rewrite IH.
Qed.

Lemma height_list_app (l t : list Value) :
  (height (VList l) <= height (VList (l ++ t)%list))%nat.
Proof.
  simpl. apply le_n_S. induction l as [|x l IH]; simpl; lia.
Qed.

Lemma index_path_inj (p : string) (i j : nat) :
  index_path p i = index_path p j -> i = j.
Proof.
  intros Heq. apply (below_index_path_inj p (index_path p i)).
  - apply below_refl.
  - rewrite Heq. apply below_refl.
Qed.

(** The loop over the indices past the end of the before list, run on all
    of them: each index gets an entry, and no other path gets one. *)
Lemma for_each_tail_added_seq (a : list Value) (path : string)
    (n : nat) :
  starts_with "." path = false ->
  forall (lo : nat) (d0 : Differences),
    (lo + n <= length a)%nat ->
    exists d,
      for_each (fun d i => v <- list_getitem a i ;;
                           Ok (set_added (strip "." (index_path path i)) v d))
               (seq lo n) d0 = Ok d /\
      removed d = removed d0 /\ changed d = changed d0 /\
      (forall i v, (lo <= i < lo + n)%nat -> nth_error a i = Some v ->
                   added d !! index_path path i = Some v) /\
      (forall q, (forall i, (lo <= i < lo + n)%nat -> q <> index_path path i) ->
                 added d !! q = added d0 !! q).
Proof.
  intros Hp. induction n as [|n IH]; intros lo d0 Hlen; simpl.
  - exists d0. split; [done|]. split; [done|]. split; [done|].
    split; [intros; lia | done].
  - unfold list_getitem at 1.
    destruct (nth_error a lo) as [v0|] eqn:Hlo;
      [|apply nth_error_None in Hlo; lia].
    cbn [bind]. destruct (index_path_facts path lo Hp) as (_ & _ & ->).
    destruct (IH (S lo) (set_added (index_path path lo) v0 d0)) as
      (d & Hrun & Hr & Hc & Hin & Hout); [lia|].
    exists d. split; [done|]. split; [done|]. split; [done|]. split.
    + intros i v Hi Hv. destruct (decide (i = lo)) as [->|Hne].
      * rewrite Hout.
        -- simpl. rewrite lookup_insert_eq. congruence.
        -- intros j Hj Heq. apply index_path_inj in Heq. lia.
      * apply Hin; [lia | done].
    + intros q Hq. rewrite Hout by (intros i Hi; apply Hq; lia).
      simpl. apply lookup_insert_ne. intros Heq. by apply (Hq lo); [lia|].
Qed.

Section GrowingList.
Context {order : SetOrder}.

Lemma for_each_zip_diag (fuel i : nat) (l : list Value) (path : string) :
  (forall x, In x l -> (height x < fuel)%nat) ->
  (forall x, In x l -> no_nan x = true) ->
  for_each
    (fun d '(i, (b_item, a_item)) =>
       sub_diff <- find_differences_fuel fuel b_item a_item (index_path path i) ;;
       Ok (merge d sub_diff))
    (enumerate_zip i l l) no_differences = Ok no_differences.
Proof.
  intros Hheight Hnan.
  destruct (for_each_invariant (fun d => d = no_differences)
    (fun d '(i, (b_item, a_item)) =>
       sub_diff <- find_differences_fuel fuel b_item a_item (index_path path i) ;;
       Ok (merge d sub_diff))
    (enumerate_zip i l l) no_differences) as (d1 & -> & ->); [done| |done].
  intros d [j [x y]] Hin ->.
  pose proof (enumerate_zip_diag _ _ _ _ _ Hin) as <-.
  apply enumerate_zip_lookup in Hin as (_ & Hx%nth_error_In & _).
  rewrite find_differences_fuel_diag by auto. simpl.
  eauto using merge_no_differences.
Qed.

End GrowingList.

Lemma height_list_elem (l : list Value) (x : Value) :
  In x l -> (height x < height (VList l))%nat.
Proof.
  simpl. induction l as [|u l IH]; simpl; [done|].
  intros [->|Hin]; [lia|]. specialize (IH Hin). lia.
Qed.

(** X10: when the after state is the before sequence with elements added
    at its end, and the elements that were there hold no [NaN], the diff has
    nothing in [removed] and [changed], and [added] has one entry for each
    new element, at the path of its index and with the element as value, and
    no other entry.  The path of the sequence is the root path or any path
    that does not begin with a dot. *)
Theorem X10_elements_appended `{SetOrder} (l t : list Value) (path : string) :
  starts_with "." path = false ->
  no_nan (VList l) = true ->
  exists d,
    find_differences (VList l) (VList (l ++ t)%list) path = Ok d /\
    removed d = ∅ /\ changed d = ∅ /\
    (forall j v, nth_error t j = Some v ->
                 added d !! index_path path (length l + j) = Some v) /\
    (forall q, q ∈ dom (added d) ->
               exists j, (j < length t)%nat /\ q = index_path path (length l + j)).
Proof.
  intros Hp Hnan. unfold find_differences.
  rewrite (Nat.min_l _ _ (height_list_app l t)).
  cbn [find_differences_fuel]. rewrite enumerate_zip_app_r.
  rewrite for_each_zip_diag
    by (apply height_list_elem || (intros x; apply (no_nan_list_elem l x Hnan))).
  cbn [bind].
  rewrite length_app. unfold range.
  replace (length l + length t - length l)%nat with (length t) by lia.
  destruct (for_each_tail_added_seq (l ++ t)%list path (length t) Hp (length l)
              no_differences) as (d & Hrun & Hr & Hc & Hin & Hout);
    [by rewrite length_app|].
  assert (forall q, q ∈ dom (added d) ->
            exists j, (j < length t)%nat /\ q = index_path path (length l + j)) as Hdom.
  { intros q Hq.
    destruct (for_each_tail_added _ _ _ _ _ PAdded q Hrun Hq)
      as [H0|(_ & i & Hi & ->)].
    - simpl in H0. rewrite dom_empty in H0. by apply not_elem_of_empty in H0.
    - apply list_elem_of_In, in_seq in Hi.
      destruct (index_path_facts path i Hp) as (_ & _ & ->).
      exists (i - length l)%nat. split; [lia|]. f_equal. lia. }
  destruct (Nat.ltb_spec (length l) (length l + length t)) as [Hlt|Hge].
  - exists d. split; [done|]. split; [done|]. split; [done|]. split; [|done].
    intros j v Hj. apply Hin.
    + apply nth_error_in_range in Hj. lia.
    + rewrite nth_error_app2 by lia. by replace (length l + j - length l)%nat with j by lia.
  - replace (length l + length t <? length l)%nat with false
      by (symmetry; apply Nat.ltb_ge; lia).
    exists no_differences. split; [done|]. split; [done|]. split; [done|]. split.
    + intros j v Hj. apply nth_error_in_range in Hj. lia.
    + intros q Hq. simpl in Hq. rewrite dom_empty in Hq. by apply not_elem_of_empty in Hq.
Qed.

Lemma X10_elements_appended_witness :
  starts_with "." "rules" = false /\
  no_nan (VList [VInt 1]) = true /\
  exists d,
    find_differences (order := elements_order)
      (VList [VInt 1]) (VList ([VInt 1] ++ [VInt 2; VStr "x"])%list) "rules" = Ok d /\
    removed d = ∅ /\ changed d = ∅ /\
    (forall j v, nth_error [VInt 2; VStr "x"] j = Some v ->
                 added d !! index_path "rules" (length [VInt 1] + j) = Some v) /\
    (forall q, q ∈ dom (added d) ->
               exists j, (j < length [VInt 2; VStr "x"])%nat /\
                         q = index_path "rules" (length [VInt 1] + j)).
Proof.
  split; [reflexivity|]. split; [reflexivity|].
  apply (@X10_elements_appended elements_order [VInt 1] [VInt 2; VStr "x"] "rules");
    reflexivity.
Defined.

(* ===================================================================== *)
(** ** The files and main *)
(* ===================================================================== *)

Lemma string_length_app (s t : string) :
  String.length (s ++ t) = (String.length s + String.length t)%nat.
Proof. induction s as [|c s IH]; simpl; [done | by rewrite IH]. Qed.

Lemma string_app_inv_tail (s1 s2 t : string) : s1 ++ t = s2 ++ t -> s1 = s2.
Proof.
  revert s2. induction s1 as [|c s1 IH]; intros [|c' s2]; simpl; intros Heq.
  - done.
  - apply (f_equal String.length) in Heq. simpl in Heq.
    rewrite string_length_app in Heq. lia.
  - apply (f_equal String.length) in Heq. simpl in Heq.
    rewrite string_length_app in Heq. lia.
  - injection Heq as -> Heq. f_equal. by apply IH.
Qed.

Lemma file_name_inj (c1 c2 t : string) : file_name c1 t = file_name c2 t -> c1 = c2.
Proof.
  unfold file_name. intros Heq%string_app_inv_head.
  by apply string_app_inv_tail in Heq.
Qed.

Lemma bucket_name_inj (k k' : bucket) : bucket_name k = bucket_name k' -> k = k'.
Proof. destruct k, k'; simpl; intros Heq; try done; discriminate Heq. Qed.

Lemma file_name_sections_differ (k k' : bucket) :
  file_name (bucket_name k) "resource_drift"
  <> file_name (bucket_name k') "resource_changes".
Proof. destruct k, k'; vm_compute; discriminate. Qed.

Lemma generate_json_files_stdout (changes : changes_dict) (t : string) (w : world) :
  stdout (generate_json_files changes t w) = stdout w.
Proof. reflexivity. Qed.

Lemma generate_json_files_lookup (changes : changes_dict) (t : string) (w : world)
    (k : bucket) :
  files (generate_json_files changes t w) !! file_name (bucket_name k) t
  = Some (bucket_list k changes).
Proof.
  unfold generate_json_files, changes_items. cbn [fold_left files stdout].
  destruct k; cbn [bucket_name bucket_list];
    repeat (rewrite lookup_insert_ne by (intros Heq%file_name_inj; discriminate Heq));
    apply lookup_insert_eq.
Qed.

Lemma generate_json_files_other (changes : changes_dict) (t : string) (w : world)
    (f : string) :
  (forall k, f <> file_name (bucket_name k) t) ->
  files (generate_json_files changes t w) !! f = files w !! f.
Proof.
  intros Hf. unfold generate_json_files, changes_items. cbn [fold_left files stdout].
  rewrite !lookup_insert_ne; [done|..]; intros Heq; symmetry in Heq.
  - by apply (Hf CreateAndDelete).
  - by apply (Hf Create).
  - by apply (Hf Update).
  - by apply (Hf Delete).
  - by apply (Hf Replace).
  - by apply (Hf NoOp).
Qed.

(** X11: [generate_json_files] writes one file for each of the six lists,
    named after the list and the section, and no two of the six share a
    name: afterwards each of these files holds its own list, every other
    file is as it was, and nothing was printed. *)
Theorem X11_one_file_per_list (changes : changes_dict) (type_of_change : string)
    (w : world) :
  (forall k k', file_name (bucket_name k) type_of_change
                = file_name (bucket_name k') type_of_change -> k = k') /\
  (forall k, files (generate_json_files changes type_of_change w)
               !! file_name (bucket_name k) type_of_change
             = Some (bucket_list k changes)) /\
  (forall f, (forall k, f <> file_name (bucket_name k) type_of_change) ->
             files (generate_json_files changes type_of_change w) !! f
             = files w !! f) /\
  stdout (generate_json_files changes type_of_change w) = stdout w.
Proof.
  split; [intros k k' Heq%file_name_inj; by apply bucket_name_inj|].
  split; [apply generate_json_files_lookup|].
  split; [apply generate_json_files_other | reflexivity].
Qed.

Section MainFacts.
Context {order : SetOrder}.
Variable format_value : Value -> string.
Variable json_dumps : Value -> string.
Variable json_dumps_differences : differences_field -> string.

Lemma display_changes_files (l : list resource) (w : world) :
  files (fold_left
           (fun w r => display_change format_value json_dumps json_dumps_differences r w)
           l w) = files w.
Proof. revert w. induction l as [|r l IH]; intros w; simpl; [done|]. by rewrite IH. Qed.

Lemma display_detailed_changes_files (cd : changes_dict) (t : string) (w : world) :
  files (display_detailed_changes format_value json_dumps json_dumps_differences cd t w)
  = files w.
Proof.
  unfold display_detailed_changes, changes_items. cbn [fold_left].
  repeat (rewrite display_changes_files; cbn [print files]). reflexivity.
Qed.

Lemma analyse_plan_cases (plan : gmap string (list change)) (t : string) :
  if no_changes plan t
  then analyse_plan plan t = Ok None
  else exists cd s, analyse_plan plan t = Ok (Some (cd, s)).
Proof.
  unfold no_changes, analyse_plan.
  destruct (default [] (plan !! t)) as [|c changes]; [done|].
  destruct (for_each_analyse_change (c :: changes) (changes_dict0, summary0))
    as ([cd s] & -> & _).
  by exists cd, s.
Qed.

Lemma main_unfold (plan : gmap string (list change)) (w : world) :
  main format_value json_dumps json_dumps_differences plan w =
  match main_section format_value json_dumps json_dumps_differences plan w
          "resource_drift" with
  | (w1, None) =>
      main_section format_value json_dumps json_dumps_differences plan w1
        "resource_changes"
  | (w1, Some e) => (w1, Some e)
  end.
Proof.
  unfold main. cbn [fold_left].
  by destruct (main_section _ _ _ plan w "resource_drift") as [w1 [e|]].
Qed.

(** What one turn of the loop of [main] leaves, on a section with changes. *)
Lemma main_section_some (plan : gmap string (list change)) (w : world) (t : string)
    (cd : changes_dict) (s : summary) :
  analyse_plan plan t = Ok (Some (cd, s)) ->
  exists w1,
    main_section format_value json_dumps json_dumps_differences plan w t = (w1, None) /\
    (forall k, files w1 !! file_name (bucket_name k) t = Some (bucket_list k cd)) /\
    (forall f, (forall k, f <> file_name (bucket_name k) t) ->
               files w1 !! f = files w !! f).
Proof.
  intros Hrun. unfold main_section. rewrite Hrun. eexists. split; [reflexivity|].
  split.
  - intros k. apply generate_json_files_lookup.
  - intros f Hf. rewrite generate_json_files_other by done.
    by rewrite display_detailed_changes_files.
Qed.

End MainFacts.

(** X12: on a plan whose section ["resource_drift"] is missing or empty,
    [main] ends with the [TypeError] of unpacking [None], before anything
    is printed or written and without looking at ["resource_changes"]. *)
Theorem X12_main_fails_without_drift `{SetOrder}
    (format_value json_dumps : Value -> string)
    (json_dumps_differences : differences_field -> string)
    (plan : gmap string (list change)) (w : world) :
  no_changes plan "resource_drift" = true ->
  main format_value json_dumps json_dumps_differences plan w = (w, Some TypeError).
Proof.
  intros Hno. rewrite main_unfold. unfold main_section.
  pose proof (analyse_plan_cases plan "resource_drift") as Hrun.
  rewrite Hno in Hrun. by rewrite Hrun.
Qed.

Lemma X12_main_fails_without_drift_witness :
  no_changes no_drift_plan "resource_drift" = true /\
  main (order := elements_order) (fun _ => "") (fun _ => "") (fun _ => "")
       no_drift_plan world0 = (world0, Some TypeError).
Proof.
  split; [reflexivity|].
  apply (@X12_main_fails_without_drift elements_order (fun _ => "") (fun _ => "")
           (fun _ => "") no_drift_plan world0).
  reflexivity.
Defined.

(** X13: [main] returns exactly when both sections have changes; when one
    of them is missing or empty it ends with [TypeError], and it never ends
    with an exception of [analyse_plan]. *)
Theorem X13_main_returns_iff_both_sections `{SetOrder}
    (format_value json_dumps : Value -> string)
    (json_dumps_differences : differences_field -> string)
    (plan : gmap string (list change)) (w : world) :
  snd (main format_value json_dumps json_dumps_differences plan w) =
  if no_changes plan "resource_drift" || no_changes plan "resource_changes"
  then Some TypeError
  else None.
Proof.
  rewrite main_unfold.
  pose proof (analyse_plan_cases plan "resource_drift") as Hdrift.
  destruct (no_changes plan "resource_drift").
  { unfold main_section. by rewrite Hdrift. }
  destruct Hdrift as (cd & s & Hdrift).
  destruct (main_section_some format_value json_dumps json_dumps_differences
              plan w _ cd s Hdrift) as (w1 & -> & _).
  pose proof (analyse_plan_cases plan "resource_changes") as Hchanges.
  destruct (no_changes plan "resource_changes").
  { unfold main_section. by rewrite Hchanges. }
  destruct Hchanges as (cd' & s' & Hchanges).
  by destruct (main_section_some format_value json_dumps json_dumps_differences
                 plan w1 _ cd' s' Hchanges) as (w2 & -> & _).
Qed.

(** X14: when both sections have changes [main] returns, and afterwards
    each of the twelve files, one for each list of each section, holds the
    list that [analyse_plan] made for it: no file is written over by
    another. *)
Theorem X14_main_writes_twelve_files `{SetOrder}
    (format_value json_dumps : Value -> string)
    (json_dumps_differences : differences_field -> string)
    (plan : gmap string (list change)) (w : world) :
  no_changes plan "resource_drift" = false ->
  no_changes plan "resource_changes" = false ->
  exists cd1 s1 cd2 s2 w',
    analyse_plan plan "resource_drift" = Ok (Some (cd1, s1)) /\
    analyse_plan plan "resource_changes" = Ok (Some (cd2, s2)) /\
    main format_value json_dumps json_dumps_differences plan w = (w', None) /\
    forall k,
      files w' !! file_name (bucket_name k) "resource_drift"
        = Some (bucket_list k cd1) /\
      files w' !! file_name (bucket_name k) "resource_changes"
        = Some (bucket_list k cd2).
Proof.
  intros Hdrift Hchanges.
  pose proof (analyse_plan_cases plan "resource_drift") as H1.
  pose proof (analyse_plan_cases plan "resource_changes") as H2.
  rewrite Hdrift in H1. rewrite Hchanges in H2.
  destruct H1 as (cd1 & s1 & H1). destruct H2 as (cd2 & s2 & H2).
  destruct (main_section_some format_value json_dumps json_dumps_differences
              plan w _ cd1 s1 H1) as (w1 & Hw1 & Hfiles1 & _).
  destruct (main_section_some format_value json_dumps json_dumps_differences
              plan w1 _ cd2 s2 H2) as (w2 & Hw2 & Hfiles2 & Hother2).
  exists cd1, s1, cd2, s2, w2. split; [done|]. split; [done|].
  split; [by rewrite main_unfold, Hw1|].
  intros k. split; [|apply Hfiles2].
  rewrite Hother2; [apply Hfiles1|].
  intros k'. apply file_name_sections_differ.
Qed.

Lemma X14_main_writes_twelve_files_witness :
  no_changes mixed_plan "resource_drift" = false /\
  no_changes mixed_plan "resource_changes" = false /\
  exists cd1 s1 cd2 s2 w',
    analyse_plan (order := elements_order) mixed_plan "resource_drift"
      = Ok (Some (cd1, s1)) /\
    analyse_plan (order := elements_order) mixed_plan "resource_changes"
      = Ok (Some (cd2, s2)) /\
    main (order := elements_order) (fun _ => "") (fun _ => "") (fun _ => "")
         mixed_plan world0 = (w', None) /\
    forall k,
      files w' !! file_name (bucket_name k) "resource_drift"
        = Some (bucket_list k cd1) /\
      files w' !! file_name (bucket_name k) "resource_changes"
        = Some (bucket_list k cd2).
Proof.
  split; [reflexivity|]. split; [reflexivity|].
  apply (@X14_main_writes_twelve_files elements_order (fun _ => "") (fun _ => "")
           (fun _ => "") mixed_plan world0); reflexivity.
Defined.

(* ===================================================================== *)
(** ** The order in which sets are iterated *)
(* ===================================================================== *)

Lemma bind_assoc {A B C : Type} (r : result A) (f : A -> result B)
    (g : B -> result C) :
  bind (bind r f) g = bind r (fun a => bind (f a) g).
Proof. by destruct r. Qed.

(** A loop gives the same result on a permutation of its list and with a
    body that agrees with its own on the elements, when the turns for two
    different elements can be exchanged. *)
Lemma for_each_permutation {A S : Type} (P : A -> Prop)
    (body1 body2 : S -> A -> result S) (l1 l2 : list A) (s : S) :
  l1 ≡ₚ l2 ->
  Forall P l1 ->
  (forall x s, P x -> body1 s x = body2 s x) ->
  (forall x y s, P x -> P y -> x <> y ->
     (s1 <- body1 s x ;; body1 s1 y) = (s1 <- body1 s y ;; body1 s1 x)) ->
  (forall x y : A, x = y \/ x <> y) ->
  for_each body1 l1 s = for_each body2 l2 s.
Proof.
  intros Hperm HP Hsame Hcomm Hdec.
  assert (for_each body1 l1 s = for_each body1 l2 s) as ->.
  { clear Hsame. revert s.
    induction Hperm as [|x l l' Hperm IH|x y l|l l' l'' Hperm1 IH1 Hperm2 IH2];
      intros s.
    - done.
    - simpl. apply Forall_cons in HP as [_ HP].
      destruct (body1 s x); simpl; auto.
    - apply Forall_cons in HP as [Hy HP]. apply Forall_cons in HP as [Hx HP].
      cbn [for_each].
      rewrite <- (bind_assoc (body1 s y)), <- (bind_assoc (body1 s x)).
      destruct (Hdec x y) as [->|Hne]; [done|].
      by rewrite (Hcomm x y s Hx Hy Hne).
    - rewrite IH1 by done. apply IH2. by rewrite <- Hperm1. }
  assert (Forall P l2) as HP2 by by rewrite <- Hperm.
  clear Hperm HP Hcomm. revert s.
  induction l2 as [|x l2 IH]; intros s; simpl; [done|].
  apply Forall_cons in HP2 as [Hx HP2]. rewrite (Hsame x s Hx).
  destruct (body2 s x); simpl; auto.
Qed.

Lemma insert_all_permutation (path : string) (items : list (string * Value))
    (l1 l2 : list string) (m : gmap string Value) :
  l1 ≡ₚ l2 ->
  (forall k k', k ∈ l1 -> k' ∈ l1 -> key_path path k = key_path path k' -> k = k') ->
  insert_all path items l1 m = insert_all path items l2 m.
Proof.
  unfold insert_all. intros Hperm. revert m.
  induction Hperm as [|x l l' Hperm IH|x y l|l l' l'' Hperm1 IH1 Hperm2 IH2];
    intros m Hinj.
  - done.
  - simpl. apply IH. intros k k' Hk Hk'. apply Hinj; by right.
  - simpl. destruct (decide (x = y)) as [->|Hne]; [done|].
    rewrite insert_insert_ne; [done|].
    intros Heq. apply Hne. apply Hinj; [right; left | left | done].
  - rewrite IH1 by done. apply IH2.
    intros k k' Hk Hk'. apply Hinj; by rewrite Hperm1.
Qed.

Lemma merge_exchange (d s1 s2 : Differences) :
  (forall x q, q ∈ part_dom x s1 -> q ∈ part_dom x s2 -> False) ->
  merge (merge d s1) s2 = merge (merge d s2) s1.
Proof.
  intros Hdisj. unfold merge, update. simpl.
  assert (forall {V : Type} (m1 m2 m : gmap string V),
            (forall q, q ∈ dom m1 -> q ∈ dom m2 -> False) ->
            m2 ∪ (m1 ∪ m) = m1 ∪ (m2 ∪ m)) as Hex.
  { intros V m1 m2 m Hd. rewrite !(assoc_L (∪)). f_equal.
    apply map_union_comm, map_disjoint_dom, elem_of_disjoint.
    intros q H2 H1. by apply (Hd q). }
  f_equal; apply Hex.
  - apply (Hdisj PAdded).
  - apply (Hdisj PRemoved).
  - apply (Hdisj PChanged).
Qed.

Lemma key_path_plain_inj (p k k' : string) :
  starts_with "." p = false -> plain_key k = true -> plain_key k' = true ->
  key_path p k = key_path p k' -> k = k'.
Proof.
  intros Hp Hk Hk' Heq. apply (below_key_path_inj p k k' (key_path p k)); try done.
  - apply below_refl.
  - rewrite Heq. apply below_refl.
Qed.

Lemma for_each_ext {A S : Type} (body1 body2 : S -> A -> result S)
    (l : list A) (s : S) :
  (forall x s, x ∈ l -> body1 s x = body2 s x) ->
  for_each body1 l s = for_each body2 l s.
Proof.
  revert s. induction l as [|x l IH]; intros s Hsame; simpl; [done|].
  rewrite (Hsame x s) by left. destruct (body2 s x); simpl; [|done].
  apply IH. intros y s' Hy. apply Hsame. by right.
Qed.

Lemma set_iter_orders (o1 o2 : SetOrder) (e : set_expr) :
  @set_iter o1 e ≡ₚ @set_iter o2 e.
Proof. by rewrite (@set_iter_perm o1 e), (@set_iter_perm o2 e). Qed.

(** With plain keys and enough fuel, the diff does not depend on the order
    in which the sets of keys are iterated. *)
Lemma find_differences_fuel_order (o1 o2 : SetOrder) (fuel : nat) :
  forall (before after : Value) (path : string),
    (Nat.min (height before) (height after) < fuel)%nat ->
    starts_with "." path = false ->
    plain_keys before = true -> plain_keys after = true ->
    @find_differences_fuel o1 fuel before after path
    = @find_differences_fuel o2 fuel before after path.
Proof.
  induction fuel as [|fuel IH]; intros before after path Hfuel Hp Hb Ha; [lia|].
  destruct (is_dict before && is_dict after) eqn:Hd;
    [|destruct (is_list before && is_list after) eqn:Hl].
  - (* two dicts *)
    destruct before as [| | | | | |b| | |], after as [| | | | | |a| | |]; try discriminate.
    rewrite (@find_differences_fuel_dict o1), (@find_differences_fuel_dict o2).
    assert (forall k bv av, dict_get b k = Some bv -> dict_get a k = Some av ->
              plain_key k = true /\
              (Nat.min (height bv) (height av) < fuel)%nat /\
              starts_with "." (key_path path k) = false /\
              key_path path k <> "" /\
              plain_keys bv = true /\ plain_keys av = true) as Hsub.
    { intros k bv av Hbv Hav.
      destruct (plain_keys_dict_get b k bv Hb Hbv) as [Hk Hpb].
      destruct (plain_keys_dict_get a k av Ha Hav) as [_ Hpa].
      destruct (key_path_plain_facts path k Hp Hk) as (Hne & Hst & _).
      apply dict_get_height in Hbv, Hav.
      change (height (VDict b))
        with (S (fold_right (fun kv n => Nat.max (height (snd kv)) n) 0%nat b)) in *.
      change (height (VDict a))
        with (S (fold_right (fun kv n => Nat.max (height (snd kv)) n) 0%nat a)) in *.
      repeat split; try done. lia. }
    rewrite (insert_all_permutation path a
               (@set_iter o2 (SetDiff (keys_of a) (keys_of b)))
               (@set_iter o1 (SetDiff (keys_of a) (keys_of b))))
      by (apply set_iter_orders ||
          (intros k k' [Hk _]%set_iter_difference
                       [Hk' _]%set_iter_difference;
           apply key_path_plain_inj; eauto using plain_key_of_key_set)).
    rewrite (insert_all_permutation path b
               (@set_iter o2 (SetDiff (keys_of b) (keys_of a)))
               (@set_iter o1 (SetDiff (keys_of b) (keys_of a))))
      by (apply set_iter_orders ||
          (intros k k' [Hk _]%set_iter_difference
                       [Hk' _]%set_iter_difference;
           apply key_path_plain_inj; eauto using plain_key_of_key_set)).
    apply (for_each_permutation (fun k => k ∈ key_set b /\ k ∈ key_set a)).
    + apply set_iter_orders.
    + apply Forall_forall. intros k Hk.
      by apply set_iter_intersection in Hk.
    + intros k d [Hkb Hka].
      destruct (getitem_key_set b k Hkb) as (bv & -> & Hbv).
      destruct (getitem_key_set a k Hka) as (av & -> & Hav).
      cbn [bind]. destruct (Hsub k bv av Hbv Hav) as (_ & ? & ? & _ & ? & ?).
      by rewrite IH.
    + intros k k' d [Hkb Hka] [Hkb' Hka'] Hne.
      destruct (getitem_key_set b k Hkb) as (bv & -> & Hbv).
      destruct (getitem_key_set a k Hka) as (av & -> & Hav).
      destruct (getitem_key_set b k' Hkb') as (bv' & -> & Hbv').
      destruct (getitem_key_set a k' Hka') as (av' & -> & Hav').
      cbn [bind].
      destruct (Hsub k bv av Hbv Hav) as (Hk & Hf & Hst & Hnon & Hpb & Hpa).
      destruct (Hsub k' bv' av' Hbv' Hav') as (Hk' & Hf' & Hst' & Hnon' & Hpb' & Hpa').
      destruct (@find_differences_fuel_ok o1 fuel bv av (key_path path k) Hf)
        as [sub Hrun].
      destruct (@find_differences_fuel_ok o1 fuel bv' av' (key_path path k') Hf')
        as [sub' Hrun'].
      rewrite Hrun, Hrun'. cbn [bind].
      f_equal. apply merge_exchange. intros x q Hq Hq'.
      destruct (@find_differences_fuel_paths o1 _ _ _ _ _ Hst Hpb Hpa Hrun)
        as [Hreach _].
      destruct (@find_differences_fuel_paths o1 _ _ _ _ _ Hst' Hpb' Hpa' Hrun')
        as [Hreach' _].
      apply Hne. apply (below_key_path_inj path k k' q); try done.
      * by apply reach_below, (Hreach x).
      * by apply reach_below, (Hreach' x).
    + intros x y. destruct (decide (x = y)); auto.
  - (* two lists *)
    destruct before as [| | | | |b| | | |], after as [| | | | |a| | | |]; try discriminate.
    cbn [find_differences_fuel].
    rewrite (for_each_ext
      (fun d '(i, (b_item, a_item)) =>
         sub_diff <- @find_differences_fuel o1 fuel b_item a_item (index_path path i) ;;
         Ok (merge d sub_diff))
      (fun d '(i, (b_item, a_item)) =>
         sub_diff <- @find_differences_fuel o2 fuel b_item a_item (index_path path i) ;;
         Ok (merge d sub_diff))); [done|].
    intros [i [x y]] d Hin.
    destruct (enumerate_zip_height _ _ _ _ _ _ Hin) as [Hx Hy].
    apply enumerate_zip_lookup in Hin as (_ & Hbx & Hay).
    destruct (index_path_facts path i Hp) as (_ & Hst & _).
    rewrite IH; [done | | done | |].
    + change (height (VList b))
        with (S (fold_right (fun x n => Nat.max (height x) n) 0%nat b)) in *.
      change (height (VList a))
        with (S (fold_right (fun x n => Nat.max (height x) n) 0%nat a)) in *.
      lia.
    + by apply (plain_keys_nth_error b (i - 0)).
    + by apply (plain_keys_nth_error a (i - 0)).
  - (* one comparison *)
    by rewrite !find_differences_fuel_other.
Qed.

(** X15: when every key of every mapping of the two states is plain, the
    diff taken at the root path, and with it what [get_the_differences]
    returns, is the same for every order in which Python may iterate the
    sets of keys. *)
Theorem X15_result_independent_of_set_order (o1 o2 : SetOrder)
    (before after : Value) :
  plain_keys before = true ->
  plain_keys after = true ->
  @find_differences o1 before after "" = @find_differences o2 before after "" /\
  @get_the_differences o1 before after = @get_the_differences o2 before after.
Proof.
  intros Hb Ha.
  assert (@find_differences o1 before after "" = @find_differences o2 before after "")
    as Heq by (apply find_differences_fuel_order; [lia | done..]).
  split; [done|]. unfold get_the_differences. by rewrite Heq.
Qed.

Lemma X15_result_independent_of_set_order_witness :
  plain_keys plain_before = true /\
  plain_keys plain_after = true /\
  @find_differences elements_order plain_before plain_after ""
    = @find_differences reverse_order plain_before plain_after "" /\
  @get_the_differences elements_order plain_before plain_after
    = @get_the_differences reverse_order plain_before plain_after.
Proof.
  split; [reflexivity|]. split; [reflexivity|].
  apply (X15_result_independent_of_set_order elements_order reverse_order
           plain_before plain_after); reflexivity.
Defined.

(** X16: without plain keys the diff can depend on the order in which the
    sets are iterated: the keys ["a"] and ["a."] of [trailing_dot_after]
    are both new and both get the path ["a"], and the value that [added]
    keeps there is that of the key that comes last. *)
Theorem X16_result_can_depend_on_set_order :
  plain_keys trailing_dot_after = false /\
  (exists d, @find_differences elements_order (VDict []) trailing_dot_after "" = Ok d /\
             added d !! "a" = Some (VInt 1)) /\
  (exists d, @find_differences reverse_order (VDict []) trailing_dot_after "" = Ok d /\
             added d !! "a" = Some (VInt 2)).
Proof.
  split; [reflexivity|].
  split; (eexists; split; [vm_compute; reflexivity|]); vm_compute; reflexivity.
Qed.

(** X17: in every record that [change_details] returns, before and after
    are never [null], [0], the empty string or the empty list: each is a
    value that Python takes for true, or the empty mapping [{}]. *)
Theorem X17_states_truthy_or_empty_mapping `{SetOrder} (c : change)
    (action : list string) (r : resource) :
  change_details c action = Ok r ->
  (truthy (r_before r) = true \/ r_before r = VDict []) /\
  (truthy (r_after r) = true \/ r_after r = VDict []).
Proof.
  destruct action as [|first rest]; [discriminate|]. unfold change_details.
  destruct (contains first control_actions).
  - destruct (get_the_differences _ _) as [o|e]; [|discriminate]. cbn [bind].
    intros [= <-]. cbn [r_before r_after].
    split.
    + destruct (truthy (default (VDict []) (cb_before _))) eqn:Ht; auto.
    + destruct (truthy (default (VDict []) (cb_after _))) eqn:Ht; auto.
  - intros [= <-]. split; by right.
Qed.

Lemma X17_states_truthy_or_empty_mapping_witness :
  (exists r,
     change_details (order := elements_order) null_before_change ["create"] = Ok r /\
     (truthy (r_before r) = true \/ r_before r = VDict []) /\
     (truthy (r_after r) = true \/ r_after r = VDict [])).
Proof.
  eexists. split; [vm_compute; reflexivity|].
  apply (@X17_states_truthy_or_empty_mapping elements_order null_before_change
           ["create"]).
  vm_compute. reflexivity.
Defined.

(** X18: the path of a plain key is the key itself at the root path and
    [path.key] under a path that is not empty and does not begin with a
    dot; the path of an index is [path[i]], and stripping dots changes
    neither. *)
Theorem X18_path_format (path key : string) (i : nat) :
  starts_with "." path = false ->
  plain_key key = true ->
  key_path "" key = key /\
  (path <> "" -> key_path path key = path ++ "." ++ key) /\
  strip "." (index_path path i) = path ++ "[" ++ str i ++ "]".
Proof.
  intros Hp Hk. split; [by rewrite key_path_plain|]. split.
  - intros Hne. rewrite key_path_plain by done. by destruct path.
  - by destruct (index_path_facts path i Hp) as (_ & _ & ->).
Qed.

Lemma X18_path_format_witness :
  starts_with "." "rules[2]" = false /\
  plain_key "port" = true /\
  key_path "" "port" = "port" /\
  ("rules[2]" <> "" -> key_path "rules[2]" "port" = "rules[2]" ++ "." ++ "port") /\
  strip "." (index_path "rules[2]" 0) = "rules[2]" ++ "[" ++ str 0 ++ "]".
Proof.
  split; [reflexivity|]. split; [reflexivity|].
  apply (X18_path_format "rules[2]" "port" 0); reflexivity.
Defined.

(* ===================================================================== *)
(** ** The two directions of a diff *)
(* ===================================================================== *)

(** C9, as the specification has it, fails: [crossed_before] and
    [crossed_after] have the same two keys, in different orders, and the key
    ["k8.b"] of the root gets the path of the key ["b"] under ["k8"].  When
    the common keys are iterated in the order of the keys of the right
    operand of [&], as CPython does here, each direction keeps at that path
    the entry that it wrote last, and the two are not each other's
    exchange. *)
Lemma C9_crossed_keys_not_swapped :
  exists d d',
    @find_differences operand_order crossed_before crossed_after "" = Ok d /\
    @find_differences operand_order crossed_after crossed_before "" = Ok d' /\
    changed d !! "k8.b" = Some (VInt 1, VInt 3) /\
    changed d' !! "k8.b" = Some (VInt 4, VInt 2) /\
    ~ (forall p b a, changed d !! p = Some (b, a) <-> changed d' !! p = Some (a, b)).
Proof.
  do 2 eexists. split; [vm_compute; reflexivity|]. split; [vm_compute; reflexivity|].
  split; [vm_compute; reflexivity|]. split; [vm_compute; reflexivity|].
  intros Hswap. specialize (Hswap "k8.b" (VInt 1) (VInt 3)).
  assert (Some (VInt 4, VInt 2) = Some (VInt 3, VInt 1)) as Heq; [|discriminate Heq].
  etrans; [|apply Hswap; vm_compute; reflexivity]. vm_compute. reflexivity.
Qed.

(** C9, amended: when every key of every mapping of the two values is plain,
    that is, not empty and free of ['.'] and ['['], the two directions of a
    diff return, the [added] of one is the [removed] of the other and the
    other way round, and the [changed] of one is the [changed] of the other
    with the two components of every entry exchanged, in whatever order the
    sets of keys are iterated. *)
Theorem C9_diff_swap `{SetOrder} (before after : Value) (path : string) :
  starts_with "." path = false ->
  plain_keys before = true ->
  plain_keys after = true ->
  exists d d',
    find_differences before after path = Ok d /\
    find_differences after before path = Ok d' /\
    added d = removed d' /\
    removed d = added d' /\
    dom (changed d') = dom (changed d) /\
    forall p b a, changed d !! p = Some (b, a) <-> changed d' !! p = Some (a, b).
Proof.
  intros Hp Hb Ha.
  destruct (find_differences_ok before after path) as [d Hd].
  exists d, (swap_differences d).
  assert (find_differences after before path = Ok (swap_differences d)) as Hd'.
  { unfold find_differences in *. rewrite (Nat.min_comm (height after)).
    rewrite find_differences_fuel_swap.
    rewrite (find_differences_fuel_order (mirror_order H) H) by (done || lia).
    by rewrite Hd. }
  repeat split; try done.
  - simpl. apply dom_fmap_L.
  - simpl. intros Hq. by rewrite lookup_fmap, Hq.
  - simpl. rewrite lookup_fmap. destruct (changed d !! p) as [[x y]|]; [|done].
    simpl. by intros [= -> ->].
Qed.

Lemma C9_diff_swap_witness :
  starts_with "." "" = false /\
  plain_keys plain_before = true /\
  plain_keys plain_after = true /\
  exists d d',
    find_differences (order := operand_order) plain_before plain_after "" = Ok d /\
    find_differences (order := operand_order) plain_after plain_before "" = Ok d' /\
    added d = removed d' /\
    removed d = added d' /\
    dom (changed d') = dom (changed d) /\
    forall p b a, changed d !! p = Some (b, a) <-> changed d' !! p = Some (a, b).
Proof.
  split; [reflexivity|]. split; [reflexivity|]. split; [reflexivity|].
  apply (@C9_diff_swap operand_order plain_before plain_after ""); reflexivity.
Defined.
